(** * Linux System Assistant (ass1.py): telemetry polling and maintenance workers

    A shallow embedding of the non-visual logic of [LinuxSystemAssistant]:
    the uptime arithmetic of [get_system_info], the partition scan of
    [get_disk_info], the two sixty-sample history lists refreshed by
    [update_system_info] / [update_dashboard], and the two worker functions
    [_run_system_update_thread] and [_run_system_cleanup_thread] together
    with [log_append].

    Conventions.
    - Percentages and the uptime are Python floats that the program only
      moves around, floor-divides and prints; they are carried here as
      rationals [Q] (exact on the integer-valued inputs the statements
      range over).
    - What the operating system answers (psutil, os.geteuid, subprocess) is
      an explicit environment argument.
    - Widget calls are recorded as a trace of events, each stamped with the
      thread that issued it; the widget state is recovered by replaying the
      trace. *)

From Stdlib Require Import ZArith QArith Qround List String Ascii Bool Lia.
From Stdlib Require Import DecimalString.
From Stdlib Require Import Qabs.
Import ListNotations.

Local Open Scope Z_scope.
Local Open Scope string_scope.

(** ** Python exceptions and results *)

Module Py.

(** The exception classes the modelled code can meet; all of them derive
    from [Exception]. [OtherException] stands for any further subclass
    (OSError, FileNotFoundError, UnicodeDecodeError, ...). *)
Inductive exn_class :=
| IndexError
| PermissionError
| CalledProcessError
| OtherException.

(** An exception object: its class and [str(e)]. *)
Record exn := mk_exn { exn_type : exn_class; exn_str : string }.

(** What a call produces: a value, or a raised exception. *)
Inductive result (A : Type) :=
| Ok (a : A)
| Raise (e : exn).
Arguments Ok {A} a.
Arguments Raise {A} e.

Definition is_permission_error (e : exn) : bool :=
  match exn_type e with PermissionError => true | _ => false end.

Definition is_called_process_error (e : exn) : bool :=
  match exn_type e with CalledProcessError => true | _ => false end.

(** The newline character and the one-character string ["\n"]. *)
Definition nl : string := String "010"%char EmptyString.

(** [c.isspace()] on the ASCII range: tab, line feed, vertical tab, form
    feed, carriage return, the four separators 28..31 and the space. *)
Definition isspace (c : ascii) : bool :=
  let n := nat_of_ascii c in
  ((9 <=? n) && (n <=? 13) || (28 <=? n) && (n <=? 32))%nat.

Fixpoint lstrip (s : string) : string :=
  match s with
  | EmptyString => EmptyString
  | String c rest => if isspace c then lstrip rest else s
  end.

(** [rstrip] keeps a character when it or something after it is not
    whitespace. *)
Fixpoint rstrip (s : string) : string :=
  match s with
  | EmptyString => EmptyString
  | String c rest =>
      match rstrip rest with
      | EmptyString => if isspace c then EmptyString else String c EmptyString
      | kept => String c kept
      end
  end.

(** [s.strip()]. *)
Definition strip (s : string) : string := rstrip (lstrip s).

(** Truthiness of a string: non-empty. *)
Definition truthy (s : string) : bool :=
  match s with EmptyString => false | _ => true end.

(** [needle in haystack] for strings. *)
Fixpoint contains (needle haystack : string) : bool :=
  String.prefix needle haystack ||
  match haystack with
  | EmptyString => false
  | String _ rest => contains needle rest
  end.

End Py.

(** ** Python arithmetic on numbers *)

Module PyNum.

(** [a // b] on floats: the floor of the quotient, still a float. *)
Definition floordiv (a b : Q) : Q := inject_Z (Qfloor (a / b)).

(** [a % b] on floats, with the sign of the divisor: [a - b * (a // b)]. *)
Definition pymod (a b : Q) : Q := (a - b * floordiv a b)%Q.

(** [int(x)]: truncation towards zero. *)
Definition int (x : Q) : Z :=
  if Qle_bool 0 x then Qfloor x else Qceiling x.

(** [str(n)] / [f"{n}"] for an integer: decimal digits, a leading minus
    sign when negative. *)
Definition str (n : Z) : string := NilZero.string_of_int (Z.to_int n).

End PyNum.

(** ** MetricsProvider: host information *)

Module HostInfo.
Import PyNum.

(** The three locals of [get_system_info] computed from [uptime_seconds]. *)
Definition days (uptime_seconds : Q) : Z :=
  int (floordiv uptime_seconds (inject_Z (24 * 3600))).

Definition hours (uptime_seconds : Q) : Z :=
  int (floordiv (pymod uptime_seconds (inject_Z (24 * 3600))) (inject_Z 3600)).

Definition minutes (uptime_seconds : Q) : Z :=
  int (floordiv (pymod uptime_seconds (inject_Z 3600)) (inject_Z 60)).

(** The ["uptime"] entry of the dictionary returned by [get_system_info]:
    [f"{days}d {hours}h {minutes}m"]. *)
Definition uptime (uptime_seconds : Q) : string :=
  str (days uptime_seconds) ++ "d " ++
  str (hours uptime_seconds) ++ "h " ++
  str (minutes uptime_seconds) ++ "m".

End HostInfo.

(** ** MetricsProvider: disk partitions *)

Module DiskInfo.
Import Py.

(** An entry of [psutil.disk_partitions()]. *)
Record sdiskpart := {
  device : string;
  mountpoint : string;
  fstype : string;
  opts : string
}.

(** The value of [psutil.disk_usage(path)]. *)
Record sdiskusage := {
  total : Z;
  used : Z;
  free : Z;
  percent : Q
}.

(** The dictionary appended for an accessible partition. *)
Record partition_info := {
  pi_device : string;
  pi_mountpoint : string;
  pi_fstype : string;
  pi_total : Z;
  pi_used : Z;
  pi_free : Z;
  pi_percent : Q
}.

(** What the operating system answers during one call of [get_disk_info]. *)
Record os := {
  os_name : string;
  disk_partitions : list sdiskpart;
  disk_usage : string -> result sdiskusage
}.

Definition entry (partition : sdiskpart) (usage : sdiskusage) : partition_info :=
  {| pi_device := device partition;
     pi_mountpoint := mountpoint partition;
     pi_fstype := fstype partition;
     pi_total := total usage;
     pi_used := used usage;
     pi_free := free usage;
     pi_percent := percent usage |}.

(** The guard of the first [continue]. *)
Definition skipped_on_nt (o : os) (partition : sdiskpart) : bool :=
  String.eqb (os_name o) "nt" &&
  (contains "cdrom" (opts partition) || String.eqb (fstype partition) "").

(** The [for] loop of [get_disk_info], with [partitions] the list built so
    far. Only [PermissionError] is caught; any other exception leaves the
    loop and the function. *)
Fixpoint scan (o : os) (todo : list sdiskpart) (partitions : list partition_info)
  : result (list partition_info) :=
  match todo with
  | [] => Ok partitions
  | partition :: rest =>
      if skipped_on_nt o partition then scan o rest partitions
      else
        match disk_usage o (mountpoint partition) with
        | Ok usage => scan o rest (partitions ++ [entry partition usage])%list
        | Raise e =>
            if is_permission_error e then scan o rest partitions
            else Raise e
        end
  end.

Definition get_disk_info (o : os) : result (list partition_info) :=
  scan o (disk_partitions o) [].

(** Whether the usage query of a mount point ends in a permission error. *)
Definition permission_denied (o : os) (mp : string) : bool :=
  match disk_usage o mp with
  | Raise e => is_permission_error e
  | Ok _ => false
  end.

(** Whether the usage query of a partition ends in an exception that is
    not a permission error (and the partition is not skipped before). *)
Definition fails_otherwise (o : os) (partition : sdiskpart) : bool :=
  negb (skipped_on_nt o partition) &&
  match disk_usage o (mountpoint partition) with
  | Raise e => negb (is_permission_error e)
  | Ok _ => false
  end.

End DiskInfo.

(** ** HistoryBuffer and Poller *)

Module Poller.
Import Py.

(** [l.pop(0)]: the first element and the rest; [IndexError] when empty. *)
Definition pop0 {A : Type} (l : list A) : result (A * list A) :=
  match l with
  | [] => Raise (mk_exn IndexError "pop from empty list")
  | x :: rest => Ok (x, rest)
  end.

(** The two statements [h.pop(0); h.append(value)] applied to a history
    list. *)
Definition push (h : list Q) (value : Q) : result (list Q) :=
  match pop0 h with
  | Ok (_, rest) => Ok (rest ++ [value])%list
  | Raise e => Raise e
  end.

(** [push] iterated over a sequence of values, oldest first. *)
Fixpoint push_all (h : list Q) (values : list Q) : result (list Q) :=
  match values with
  | [] => Ok h
  | v :: later =>
      match push h v with
      | Ok h' => push_all h' later
      | Raise e => Raise e
      end
  end.

(** [[0] * capacity]; the program uses [capacity = 60]. *)
Definition filled (capacity : nat) : list Q := repeat 0%Q capacity.

(** What [platform.uname()], [psutil.boot_time()] and [time.time()] give
    during one call of [get_system_info]; [boot_time_text] is the boot
    time as [strftime] prints it. *)
Record host := {
  uname_system : string;
  uname_node : string;
  uname_release : string;
  uname_version : string;
  uname_machine : string;
  uname_processor : string;
  boot_time_text : string;
  uptime_seconds : Q
}.

(** The dictionary returned by [get_system_info]. *)
Record system_info := {
  system : string;
  node : string;
  release : string;
  version : string;
  machine : string;
  processor : string;
  boot_time : string;
  uptime : string
}.

(** The answers of the operating system, indexed by the number of earlier
    calls of the same kind. *)
Record psutil := {
  cpu_percent : nat -> Q;
  virtual_memory_percent : nat -> Q;
  hosts : nat -> host;
  disks : nat -> DiskInfo.os
}.

(** The dashboard widgets the poller fills. The two text widgets are kept
    as the data they were last filled from: [None] and [[]] as built. *)
Record dashboard := {
  cpu_progress : Q;
  cpu_line_ydata : list Q;
  memory_progress : Q;
  memory_line_ydata : list Q;
  system_info_text : option system_info;
  disk_info_text : list DiskInfo.partition_info
}.

(** The widgets of the System Info and Disk Info tabs, kept the same way;
    the labels read "Loading..." and the table is empty as built. *)
Record pages := {
  system_info_values : option system_info;
  cpu_usage_value : option Q;
  disk_tree : list DiskInfo.partition_info
}.

(** How often each query was made, and how often [update_dashboard] was
    entered. *)
Record calls := {
  cpu_percent_calls : nat;
  virtual_memory_calls : nat;
  system_info_calls : nat;
  disk_calls : nat;
  dashboard_updates : nat
}.

(** The attributes of the application object the poller reads or writes. *)
Record app := {
  cpu_usage_history : list Q;
  memory_usage_history : list Q;
  shown : dashboard;
  tabs_shown : pages;
  made : calls
}.

(** The attributes as [__init__] leaves them before its first call of
    [update_system_info]. *)
Definition init : app :=
  {| cpu_usage_history := filled 60;
     memory_usage_history := filled 60;
     shown := {| cpu_progress := 0;
                 cpu_line_ydata := filled 60;
                 memory_progress := 0;
                 memory_line_ydata := filled 60;
                 system_info_text := None;
                 disk_info_text := [] |};
     tabs_shown := {| system_info_values := None;
                      cpu_usage_value := None;
                      disk_tree := [] |};
     made := {| cpu_percent_calls := 0;
                virtual_memory_calls := 0;
                system_info_calls := 0;
                disk_calls := 0;
                dashboard_updates := 0 |} |}.

(** Assignments to one attribute group. *)
Definition with_made (st : app) (c : calls) : app :=
  let (cpu_history, memory_history, d, p, _) := st in
  {| cpu_usage_history := cpu_history;
     memory_usage_history := memory_history;
     shown := d;
     tabs_shown := p;
     made := c |}.

Definition with_shown (st : app) (d : dashboard) : app :=
  let (cpu_history, memory_history, _, p, c) := st in
  {| cpu_usage_history := cpu_history;
     memory_usage_history := memory_history;
     shown := d;
     tabs_shown := p;
     made := c |}.

Definition with_tabs_shown (st : app) (p : pages) : app :=
  let (cpu_history, memory_history, d, _, c) := st in
  {| cpu_usage_history := cpu_history;
     memory_usage_history := memory_history;
     shown := d;
     tabs_shown := p;
     made := c |}.

Definition with_histories (st : app) (cpu_history memory_history : list Q) : app :=
  let (_, _, d, p, c) := st in
  {| cpu_usage_history := cpu_history;
     memory_usage_history := memory_history;
     shown := d;
     tabs_shown := p;
     made := c |}.

(** One more call of each kind. *)
Definition asked_cpu (c : calls) : calls :=
  let (cpu, memory, info, disk, refreshed) := c in
  {| cpu_percent_calls := S cpu;
     virtual_memory_calls := memory;
     system_info_calls := info;
     disk_calls := disk;
     dashboard_updates := refreshed |}.

Definition asked_memory (c : calls) : calls :=
  let (cpu, memory, info, disk, refreshed) := c in
  {| cpu_percent_calls := cpu;
     virtual_memory_calls := S memory;
     system_info_calls := info;
     disk_calls := disk;
     dashboard_updates := refreshed |}.

Definition asked_system_info (c : calls) : calls :=
  let (cpu, memory, info, disk, refreshed) := c in
  {| cpu_percent_calls := cpu;
     virtual_memory_calls := memory;
     system_info_calls := S info;
     disk_calls := disk;
     dashboard_updates := refreshed |}.

Definition asked_disk (c : calls) : calls :=
  let (cpu, memory, info, disk, refreshed) := c in
  {| cpu_percent_calls := cpu;
     virtual_memory_calls := memory;
     system_info_calls := info;
     disk_calls := S disk;
     dashboard_updates := refreshed |}.

Definition entered_dashboard (c : calls) : calls :=
  let (cpu, memory, info, disk, refreshed) := c in
  {| cpu_percent_calls := cpu;
     virtual_memory_calls := memory;
     system_info_calls := info;
     disk_calls := disk;
     dashboard_updates := S refreshed |}.

(** [get_cpu_info()["percent"]]: one call of [psutil.cpu_percent]. *)
Definition get_cpu_info (env : psutil) (st : app) : Q * app :=
  (cpu_percent env (cpu_percent_calls (made st)),
   with_made st (asked_cpu (made st))).

(** [get_memory_info()["percent"]]: one call of [psutil.virtual_memory]. *)
Definition get_memory_info (env : psutil) (st : app) : Q * app :=
  (virtual_memory_percent env (virtual_memory_calls (made st)),
   with_made st (asked_memory (made st))).

(** The dictionary [get_system_info] builds from one answer. *)
Definition system_info_of (h : host) : system_info :=
  {| system := uname_system h;
     node := uname_node h;
     release := uname_release h;
     version := uname_version h;
     machine := uname_machine h;
     processor := if truthy (uname_processor h) then uname_processor h
                  else "Unknown";
     boot_time := boot_time_text h;
     uptime := HostInfo.uptime (uptime_seconds h) |}.

Definition get_system_info (env : psutil) (st : app) : system_info * app :=
  (system_info_of (hosts env (system_info_calls (made st))),
   with_made st (asked_system_info (made st))).

(** One call of [get_disk_info]: it returns the list or raises. *)
Definition get_disk_info (env : psutil) (st : app)
  : result (list DiskInfo.partition_info) * app :=
  (DiskInfo.get_disk_info (disks env (disk_calls (made st))),
   with_made st (asked_disk (made st))).

(** [update_dashboard]. It asks psutil again instead of taking the values
    its caller read. The CPU and memory cards and charts and the system
    overview are written before [get_disk_info()] is called; when that
    call raises, the disk overview keeps its old content and the
    exception leaves the function. The result pairs the attributes
    afterwards with the way the function ended. *)
Definition update_dashboard (env : psutil) (st0 : app) : app * result unit :=
  let st := with_made st0 (entered_dashboard (made st0)) in
  let (cpu_percent_now, st1) := get_cpu_info env st in
  let (memory_percent_now, st2) := get_memory_info env st1 in
  let (overview, st3) := get_system_info env st2 in
  let (disk_info, st4) := get_disk_info env st3 in
  match disk_info with
  | Raise e =>
      (with_shown st4
         {| cpu_progress := cpu_percent_now;
            cpu_line_ydata := cpu_usage_history st4;
            memory_progress := memory_percent_now;
            memory_line_ydata := memory_usage_history st4;
            system_info_text := Some overview;
            disk_info_text := disk_info_text (shown st4) |},
       Raise e)
  | Ok partitions =>
      (with_shown st4
         {| cpu_progress := cpu_percent_now;
            cpu_line_ydata := cpu_usage_history st4;
            memory_progress := memory_percent_now;
            memory_line_ydata := memory_usage_history st4;
            system_info_text := Some overview;
            disk_info_text := partitions |},
       Ok tt)
  end.

(** [update_system_page]: one more host query and one more CPU query. *)
Definition update_system_page (env : psutil) (st : app) : app :=
  let (info, st1) := get_system_info env st in
  let (cpu_percent_now, st2) := get_cpu_info env st1 in
  with_tabs_shown st2
    {| system_info_values := Some info;
       cpu_usage_value := Some cpu_percent_now;
       disk_tree := disk_tree (tabs_shown st2) |}.

(** [update_disk_info]: one more disk query, which may raise before the
    table is touched. *)
Definition update_disk_info (env : psutil) (st : app) : app * result unit :=
  let (disk_info, st1) := get_disk_info env st in
  match disk_info with
  | Raise e => (st1, Raise e)
  | Ok partitions =>
      (with_tabs_shown st1
         {| system_info_values := system_info_values (tabs_shown st1);
            cpu_usage_value := cpu_usage_value (tabs_shown st1);
            disk_tree := partitions |},
       Ok tt)
  end.

(** One poll tick. [tab] is [notebook.index(notebook.select())] at that
    moment. The result pairs the attributes afterwards with the way the
    tick ended: [Ok tt] when it reached [self.after(...)] and re-armed the
    timer, [Raise e] when an exception left it before. *)
Definition update_system_info (env : psutil) (tab : nat) (st : app)
  : app * result unit :=
  let (cpu_info_percent, st1) := get_cpu_info env st in
  let (memory_info_percent, st2) := get_memory_info env st1 in
  match push (cpu_usage_history st2) cpu_info_percent with
  | Raise e => (st2, Raise e)
  | Ok cpu_history =>
      let st3 := with_histories st2 cpu_history (memory_usage_history st2) in
      match push (memory_usage_history st3) memory_info_percent with
      | Raise e => (st3, Raise e)
      | Ok memory_history =>
          let st4 := with_histories st3 (cpu_usage_history st3) memory_history in
          match update_dashboard env st4 with
          | (st5, Raise e) => (st5, Raise e)
          | (st5, Ok _) =>
              let st6 :=
                if Nat.eqb tab 1 then update_system_page env st5 else st5 in
              if Nat.eqb tab 2 then update_disk_info env st6 else (st6, Ok tt)
          end
      end
  end.

(** The timer is re-armed by a tick that ends normally: [tabs] lists the
    selected tab at each successive wake-up, and a tick that raises is the
    last one. *)
Fixpoint ticks (env : psutil) (tabs : list nat) (st : app) : app * result unit :=
  match tabs with
  | [] => (st, Ok tt)
  | tab :: later =>
      match update_system_info env tab st with
      | (st', Ok _) => ticks env later st'
      | (st', Raise e) => (st', Raise e)
      end
  end.

End Poller.

(** ** CommandRunner and MaintenanceOrchestrator *)

Module Maintenance.
Import Py.

(** Who executes a statement: the thread running the Tk main loop, or a
    thread created by [threading.Thread(...).start()]. *)
Inductive thread := MainThread | WorkerThread.

Inductive tkstate := NORMAL | DISABLED.

Inductive button := update_button | cleanup_button.

(** The calls that reach outside the worker functions. *)
Inductive call :=
| log_text_config (state : tkstate)
| log_text_delete_all
| log_text_insert_first (text : string)
| log_text_insert_end (text : string)
| log_text_see_end
| update_idletasks
| button_config (b : button) (state : tkstate)
| showerror (title message : string)
| showinfo (title message : string)
| Popen (argv : list string)
| subprocess_run (argv : list string).

(** A call together with the thread that made it. *)
Record event := { issuer : thread; action : call }.

Definition trace := list event.

(** A statement: the events it produced, and how it ended. *)
Definition proc (A : Type) : Type := trace * result A.

Definition ret {A : Type} (a : A) : proc A := ([], Ok a).

Definition raise {A : Type} (e : exn) : proc A := ([], Raise e).

Definition bind {A B : Type} (m : proc A) (k : A -> proc B) : proc B :=
  match m with
  | (t, Ok a) => let (t', r) := k a in ((t ++ t')%list, r)
  | (t, Raise e) => (t, Raise e)
  end.

Notation "x <- m ;; k" := (bind m (fun x => k))
  (at level 61, m at next level, right associativity).
Notation "m ;; k" := (bind m (fun _ => k))
  (at level 61, right associativity).

(** [try: body / except Exception as e: handler e]. *)
Definition try_except {A : Type} (body : proc A) (handler : exn -> proc A) : proc A :=
  match body with
  | (t, Ok a) => (t, Ok a)
  | (t, Raise e) => let (t', r) := handler e in ((t ++ t')%list, r)
  end.

(** [try: body / finally: final]. The final block always runs; when it
    ends normally the outcome of the body stands. *)
Definition try_finally {A : Type} (body : proc A) (final : proc unit) : proc A :=
  match body, final with
  | (t, r), (t', Ok _) => ((t ++ t')%list, r)
  | (t, _), (t', Raise e) => ((t ++ t')%list, Raise e)
  end.

(** One call, made by thread [me]. *)
Definition emit (me : thread) (c : call) : proc unit :=
  ([ {| issuer := me; action := c |} ], Ok tt).

(** How a child process started by [subprocess.Popen] behaves. [reads] are
    the successive results of [process.stdout.readline()] before the one
    that ends the loop; an empty string among them is an end-of-stream read
    made while [process.poll()] is still [None]. *)
Inductive stream_end :=
| exits (returncode : Z)
| read_raises (e : exn).

Inductive child :=
| spawn_raises (e : exn)
| spawned (reads : list string) (fin : stream_end).

(** What the operating system answers during one maintenance operation. *)
Record world := {
  geteuid : Z;
  popen : list string -> child;
  run : list string -> result Z
}.

(** [log_append(text)], executed by thread [me]. *)
Definition log_append (me : thread) (text : string) : proc unit :=
  emit me (log_text_config NORMAL) ;;
  emit me (log_text_insert_end (text ++ nl)) ;;
  emit me log_text_see_end ;;
  emit me (log_text_config DISABLED) ;;
  emit me update_idletasks.

(** The [while True] loop over [readline]: every non-empty read is
    stripped and logged. *)
Fixpoint read_loop (me : thread) (reads : list string) : proc unit :=
  match reads with
  | [] => ret tt
  | output :: later =>
      (if truthy output then log_append me (strip output) else ret tt) ;;
      read_loop me later
  end.

(** The block the worker functions repeat for each streamed command:
    [Popen(argv, stdout=PIPE, stderr=STDOUT, text=True)], the read loop,
    and then [process.returncode]. *)
Definition stream (me : thread) (w : world) (argv : list string) : proc Z :=
  emit me (Popen argv) ;;
  match popen w argv with
  | spawn_raises e => raise e
  | spawned reads fin =>
      read_loop me reads ;;
      match fin with
      | exits returncode => ret returncode
      | read_raises e => raise e
      end
  end.

(** [subprocess.run(argv, check=True)]. *)
Definition run_checked (me : thread) (w : world) (argv : list string) : proc unit :=
  emit me (subprocess_run argv) ;;
  match run w argv with
  | Raise e => raise e
  | Ok returncode =>
      if (returncode =? 0)%Z then ret tt
      else raise (mk_exn CalledProcessError "non-zero exit status")
  end.

Definition root_needed : string :=
  "This operation requires root privileges. Please run with sudo.".

(** The statements that re-enable both buttons. *)
Definition enable_buttons (me : thread) : proc unit :=
  emit me (button_config update_button NORMAL) ;;
  emit me (button_config cleanup_button NORMAL).

(** The [if os.geteuid() != 0:] block, which ends in [return]. *)
Definition permission_denied (me : thread) : proc unit :=
  log_append me root_needed ;;
  emit me (showerror "Permission Error" root_needed) ;;
  enable_buttons me.

(** The [except Exception as e:] block of both worker functions. *)
Definition unexpected (me : thread) (e : exn) : proc unit :=
  log_append me ("Unexpected error: " ++ exn_str e) ;;
  emit me (showerror "Error" ("Unexpected error: " ++ exn_str e)).

(** The [try] block of [_run_system_update_thread]. *)
Definition update_body (me : thread) (w : world) : proc unit :=
  if negb (geteuid w =? 0)%Z then permission_denied me
  else
    log_append me "Updating package lists..." ;;
    returncode <- stream me w ["apt"; "update"] ;;
    if negb (returncode =? 0)%Z then
      log_append me "Error updating package lists." ;;
      emit me (showerror "Update Error" "Error updating package lists.") ;;
      enable_buttons me
    else
      log_append me (nl ++ "Upgrading packages...") ;;
      returncode <- stream me w ["apt"; "upgrade"; "-y"] ;;
      if negb (returncode =? 0)%Z then
        log_append me "Error upgrading packages." ;;
        emit me (showerror "Update Error" "Error upgrading packages.")
      else
        log_append me (nl ++ "System update completed successfully!") ;;
        emit me (showinfo "Update Complete" "System update completed successfully!").

Definition _run_system_update_thread (me : thread) (w : world) : proc unit :=
  try_finally (try_except (update_body me w) (unexpected me)) (enable_buttons me).

(** The inner [try] of the cleanup: only [CalledProcessError] is caught. *)
Definition clean_tmp (me : thread) (w : world) : proc unit :=
  try_except
    (run_checked me w ["rm"; "-rf"; "/tmp/*"] ;;
     log_append me "Temporary files cleaned.")
    (fun e =>
       if is_called_process_error e
       then log_append me "Error cleaning temporary files."
       else raise e).

(** The [try] block of [_run_system_cleanup_thread]. The return codes of
    the two streamed commands are not looked at. *)
Definition cleanup_body (me : thread) (w : world) : proc unit :=
  if negb (geteuid w =? 0)%Z then permission_denied me
  else
    log_append me "Cleaning apt cache..." ;;
    stream me w ["apt"; "clean"] ;;
    log_append me (nl ++ "Removing unused packages...") ;;
    stream me w ["apt"; "autoremove"; "-y"] ;;
    log_append me (nl ++ "Cleaning temporary files...") ;;
    clean_tmp me w ;;
    log_append me (nl ++ "System cleanup completed successfully!") ;;
    emit me (showinfo "Cleanup Complete" "System cleanup completed successfully!").

Definition _run_system_cleanup_thread (me : thread) (w : world) : proc unit :=
  try_finally (try_except (cleanup_body me w) (unexpected me)) (enable_buttons me).

(** [threading.Thread(target=target, daemon=True).start()]: the target runs
    on a new thread; an exception it lets escape ends that thread and does
    not reach the caller. *)
Definition Thread_start (target : thread -> proc unit) : proc unit :=
  (fst (target WorkerThread), Ok tt).

(** The statements of [run_system_update] / [run_system_cleanup] before
    the thread is started. *)
Definition begin (me : thread) (banner : string) : proc unit :=
  emit me (log_text_config NORMAL) ;;
  emit me log_text_delete_all ;;
  emit me (log_text_insert_first banner) ;;
  emit me (log_text_config DISABLED) ;;
  emit me (button_config update_button DISABLED) ;;
  emit me (button_config cleanup_button DISABLED).

(** The button commands; Tk runs them on the main thread. *)
Definition run_system_update (w : world) : proc unit :=
  begin MainThread ("Starting system update..." ++ nl) ;;
  Thread_start (fun t => _run_system_update_thread t w).

Definition run_system_cleanup (w : world) : proc unit :=
  begin MainThread ("Starting system cleanup..." ++ nl) ;;
  Thread_start (fun t => _run_system_cleanup_thread t w).

(** *** Reading a trace *)

(** The commands handed to the operating system, in order. *)
Fixpoint spawns (t : trace) : list (list string) :=
  match t with
  | [] => []
  | ev :: later =>
      match action ev with
      | Popen argv | subprocess_run argv => argv :: spawns later
      | _ => spawns later
      end
  end.

(** The modal dialogs opened, in order: [true] for [showerror]. *)
Fixpoint dialogs (t : trace) : list (bool * string * string) :=
  match t with
  | [] => []
  | ev :: later =>
      match action ev with
      | showerror title message => (true, title, message) :: dialogs later
      | showinfo title message => (false, title, message) :: dialogs later
      | _ => dialogs later
      end
  end.

(** The part of the window the operations change. *)
Record widgets := {
  log_text : string;
  log_text_state : tkstate;
  update_button_state : tkstate;
  cleanup_button_state : tkstate
}.

(** A Text widget ignores [insert] and [delete] while it is disabled. *)
Definition apply (ws : widgets) (c : call) : widgets :=
  match c with
  | log_text_config s =>
      {| log_text := log_text ws; log_text_state := s;
         update_button_state := update_button_state ws;
         cleanup_button_state := cleanup_button_state ws |}
  | log_text_delete_all =>
      {| log_text := match log_text_state ws with
                     | NORMAL => "" | DISABLED => log_text ws end;
         log_text_state := log_text_state ws;
         update_button_state := update_button_state ws;
         cleanup_button_state := cleanup_button_state ws |}
  | log_text_insert_first text =>
      {| log_text := match log_text_state ws with
                     | NORMAL => text ++ log_text ws | DISABLED => log_text ws end;
         log_text_state := log_text_state ws;
         update_button_state := update_button_state ws;
         cleanup_button_state := cleanup_button_state ws |}
  | log_text_insert_end text =>
      {| log_text := match log_text_state ws with
                     | NORMAL => log_text ws ++ text | DISABLED => log_text ws end;
         log_text_state := log_text_state ws;
         update_button_state := update_button_state ws;
         cleanup_button_state := cleanup_button_state ws |}
  | button_config update_button s =>
      {| log_text := log_text ws; log_text_state := log_text_state ws;
         update_button_state := s;
         cleanup_button_state := cleanup_button_state ws |}
  | button_config cleanup_button s =>
      {| log_text := log_text ws; log_text_state := log_text_state ws;
         update_button_state := update_button_state ws;
         cleanup_button_state := s |}
  | _ => ws
  end.

Definition replay (t : trace) (ws : widgets) : widgets :=
  fold_left (fun acc ev => apply acc (action ev)) t ws.

End Maintenance.

(** ** Concrete inputs used in examples *)

Module Samples.
Import Py.

(** The sixty values 1, 2, ..., 60. *)
Definition one_to_sixty : list Q :=
  map (fun n => inject_Z (Z.of_nat n)) (seq 1 60).

(** Three partitions; the usage query of [/root/secure] is denied. *)
Definition laptop : DiskInfo.os :=
  {| DiskInfo.os_name := "posix";
     DiskInfo.disk_partitions :=
       [ {| DiskInfo.device := "/dev/sda1"; DiskInfo.mountpoint := "/";
            DiskInfo.fstype := "ext4"; DiskInfo.opts := "rw" |};
         {| DiskInfo.device := "/dev/sda2"; DiskInfo.mountpoint := "/root/secure";
            DiskInfo.fstype := "ext4"; DiskInfo.opts := "rw" |};
         {| DiskInfo.device := "/dev/sda3"; DiskInfo.mountpoint := "/home";
            DiskInfo.fstype := "ext4"; DiskInfo.opts := "rw" |} ];
     DiskInfo.disk_usage := fun mp =>
       if String.eqb mp "/root/secure"
       then Raise (mk_exn PermissionError "[Errno 13] Permission denied")
       else Ok {| DiskInfo.total := 1000; DiskInfo.used := 400;
                  DiskInfo.free := 600; DiskInfo.percent := 40 |} |}.

(** A host that has been up for 200000.25 seconds and whose [uname]
    reports no processor name. *)
Definition workstation : Poller.host :=
  {| Poller.uname_system := "Linux";
     Poller.uname_node := "box";
     Poller.uname_release := "6.1.0";
     Poller.uname_version := "#1 SMP";
     Poller.uname_machine := "x86_64";
     Poller.uname_processor := "";
     Poller.boot_time_text := "2024-03-01 08:00:00";
     Poller.uptime_seconds := 800001 # 4 |}.

(** An environment whose first CPU reading is 42.5 and whose later
    readings are 50; memory reads 30 throughout, and every disk query
    sees the partitions of [laptop]. *)
Definition moving_provider : Poller.psutil :=
  {| Poller.cpu_percent := fun k => match k with O => 85 # 2 | _ => 50%Q end;
     Poller.virtual_memory_percent := fun _ => 30%Q;
     Poller.hosts := fun _ => workstation;
     Poller.disks := fun _ => laptop |}.

(** A user without root privileges. *)
Definition unprivileged : Maintenance.world :=
  {| Maintenance.geteuid := 1000;
     Maintenance.popen := fun _ => Maintenance.spawned [] (Maintenance.exits 0);
     Maintenance.run := fun _ => Ok 0 |}.

(** Root; [apt clean] succeeds, [apt autoremove -y] prints one line and
    exits with code 2, [rm] succeeds. *)
Definition autoremove_fails : Maintenance.world :=
  {| Maintenance.geteuid := 0;
     Maintenance.popen := fun argv =>
       if list_eq_dec string_dec argv ["apt"; "autoremove"; "-y"]
       then Maintenance.spawned
              ["E: dpkg was interrupted" ++ nl] (Maintenance.exits 2)
       else Maintenance.spawned [] (Maintenance.exits 0);
     Maintenance.run := fun _ => Ok 0 |}.

(** Root; [apt update] prints two lines and exits with code 100. *)
Definition refresh_fails : Maintenance.world :=
  {| Maintenance.geteuid := 0;
     Maintenance.popen := fun argv =>
       if list_eq_dec string_dec argv ["apt"; "update"]
       then Maintenance.spawned
              ["Err:1 http://archive.example stable InRelease" ++ nl;
               "E: Failed to fetch" ++ nl] (Maintenance.exits 100)
       else Maintenance.spawned [] (Maintenance.exits 0);
     Maintenance.run := fun _ => Ok 0 |}.


Definition fresh_window : Maintenance.widgets :=
  {| Maintenance.log_text := "";
     Maintenance.log_text_state := Maintenance.NORMAL;
     Maintenance.update_button_state := Maintenance.NORMAL;
     Maintenance.cleanup_button_state := Maintenance.NORMAL |}.

End Samples.

(** ** Number formatting and [format_bytes] *)

Module Format.
Import Py PyNum.

(** Rounding to the nearest integer, ties to the even neighbour: what a
    format specification with a precision does to the exact value. *)
Definition round_half_even (x : Q) : Z :=
  let n := Qfloor x in
  match ((x - inject_Z n) ?= 1 # 2)%Q with
  | Lt => n
  | Gt => n + 1
  | Eq => if Z.even n then n else n + 1
  end.

(** Two decimal digits, zero padded. *)
Definition two_digits (n : Z) : string :=
  if (n <? 10)%Z then "0" ++ str n else str n.

(** [f"{x:.2f}"]. *)
Definition fixed2 (x : Q) : string :=
  let cents := round_half_even (Qabs x * 100) in
  (if Qle_bool 0 x then "" else "-") ++
  str (cents / 100) ++ "." ++ two_digits (cents mod 100).

(** The [for unit in [...]] loop of [format_bytes]; falling out of the
    loop gives the ["PB"] line. *)
Fixpoint format_loop (bytes_value : Q) (units : list string) : string :=
  match units with
  | [] => fixed2 bytes_value ++ " PB"
  | unit :: later =>
      if negb (Qle_bool 1024 bytes_value)
      then fixed2 bytes_value ++ " " ++ unit
      else format_loop (bytes_value / 1024) later
  end.

Definition units : list string := ["B"; "KB"; "MB"; "GB"; "TB"].

Definition format_bytes (bytes_value : Q) : string :=
  format_loop bytes_value units.

(** [bytes_value] after [k] rounds of [bytes_value /= 1024.0]. *)
Fixpoint shrink (k : nat) (bytes_value : Q) : Q :=
  match k with
  | O => bytes_value
  | S k' => shrink k' (bytes_value / 1024)
  end.

End Format.

(** ** MetricsProvider: CPU information *)

Module CpuInfo.
Import Py Format.

(** The named tuple of [psutil.cpu_freq()]. *)
Record scpufreq := { current : Q; min : Q; max : Q }.

(** What psutil answers during one call of [get_cpu_info]. *)
Record psutil := {
  cpu_percent : Q;
  cpu_freq : option scpufreq;
  cpu_count_physical : option Z;
  cpu_count_logical : option Z
}.

(** The dictionary returned by [get_cpu_info]. *)
Record cpu_info := {
  physical_cores : option Z;
  logical_cores : option Z;
  max_freq : string;
  current_freq : string;
  percent : Q
}.

(** Truthiness of a float: non-zero. *)
Definition nonzero (x : Q) : bool := negb (Qeq_bool x 0).

(** [f"{cpu_freq.F:.2f} MHz" if cpu_freq and cpu_freq.F else "Unknown"];
    a named tuple with three fields is always truthy. *)
Definition freq_text (freq : option scpufreq) (field : scpufreq -> Q) : string :=
  match freq with
  | Some f => if nonzero (field f) then fixed2 (field f) ++ " MHz" else "Unknown"
  | None => "Unknown"
  end.

Definition get_cpu_info (env : psutil) : cpu_info :=
  {| physical_cores := cpu_count_physical env;
     logical_cores := cpu_count_logical env;
     max_freq := freq_text (cpu_freq env) max;
     current_freq := freq_text (cpu_freq env) current;
     percent := cpu_percent env |}.

End CpuInfo.

(** ** Calendar navigation *)

Module Calendar.
Import Py PyNum.

(** [calendar.month_name] in the C locale; index 0 is the empty string. *)
Definition month_name : list string :=
  [""; "January"; "February"; "March"; "April"; "May"; "June"; "July";
   "August"; "September"; "October"; "November"; "December"].

(** [l[i]] for a sequence: negative indexes count from the end, anything
    outside raises [IndexError]. *)
Definition getitem {A : Type} (l : list A) (i : Z) : result A :=
  let n := Z.of_nat (List.length l) in
  let j := if (i <? 0)%Z then i + n else i in
  if ((0 <=? j) && (j <? n))%Z then
    match nth_error l (Z.to_nat j) with
    | Some x => Ok x
    | None => Raise (mk_exn IndexError "list index out of range")
    end
  else Raise (mk_exn IndexError "list index out of range").

(** The attributes the calendar tab keeps. *)
Record cal := {
  current_month : Z;
  current_year : Z;
  current_month_label : string;
  calendar_display : string
}.

(** [calendar.month(year, month)]: the rendered month for a month number
    1..12, an [IllegalMonthError] otherwise. [month_text] is the
    rendering of the standard library. *)
Definition calendar_month (month_text : Z -> Z -> string) (year month : Z)
  : result string :=
  if ((1 <=? month) && (month <=? 12))%Z then Ok (month_text year month)
  else Raise (mk_exn OtherException "bad month number; must be 1-12").

Definition update_calendar (month_text : Z -> Z -> string) (st : cal) : result cal :=
  match getitem month_name (current_month st) with
  | Raise e => Raise e
  | Ok name =>
      match calendar_month month_text (current_year st) (current_month st) with
      | Raise e => Raise e
      | Ok cal_text =>
          Ok {| current_month := current_month st;
                current_year := current_year st;
                current_month_label := name ++ " " ++ str (current_year st);
                calendar_display := cal_text |}
      end
  end.

Definition prev_month (month_text : Z -> Z -> string) (st : cal) : result cal :=
  let month := current_month st - 1 in
  update_calendar month_text
    (if (month <? 1)%Z
     then {| current_month := 12;
             current_year := current_year st - 1;
             current_month_label := current_month_label st;
             calendar_display := calendar_display st |}
     else {| current_month := month;
             current_year := current_year st;
             current_month_label := current_month_label st;
             calendar_display := calendar_display st |}).

Definition next_month (month_text : Z -> Z -> string) (st : cal) : result cal :=
  let month := current_month st + 1 in
  update_calendar month_text
    (if (12 <? month)%Z
     then {| current_month := 1;
             current_year := current_year st + 1;
             current_month_label := current_month_label st;
             calendar_display := calendar_display st |}
     else {| current_month := month;
             current_year := current_year st;
             current_month_label := current_month_label st;
             calendar_display := calendar_display st |}).

(** A sequence of button presses: [true] for "Next >", [false] for
    "< Previous". *)
Fixpoint presses (month_text : Z -> Z -> string) (buttons : list bool) (st : cal)
  : result cal :=
  match buttons with
  | [] => Ok st
  | b :: later =>
      match (if b then next_month else prev_month) month_text st with
      | Ok st' => presses month_text later st'
      | Raise e => Raise e
      end
  end.

(** Presses of "Next >" minus presses of "< Previous". *)
Fixpoint net (buttons : list bool) : Z :=
  match buttons with
  | [] => 0
  | true :: later => net later + 1
  | false :: later => net later - 1
  end.

End Calendar.

(** ** Reading poller runs and traces *)

Module Readings.
Import Py.

(** The CPU percentages a run of ticks records: the answer to the first
    query of each tick, where a tick makes two queries, or three while
    tab 1 is selected. [calls] counts the queries made before. *)
Fixpoint cpu_samples (env : Poller.psutil) (calls : nat) (tabs : list nat) : list Q :=
  match tabs with
  | [] => []
  | tab :: later =>
      Poller.cpu_percent env calls
      :: cpu_samples env (calls + 2 + (if Nat.eqb tab 1 then 1 else 0))%nat later
  end.

(** The memory percentages [n] ticks record: every second answer. *)
Fixpoint memory_samples (env : Poller.psutil) (calls : nat) (n : nat) : list Q :=
  match n with
  | O => []
  | S n' =>
      Poller.virtual_memory_percent env calls :: memory_samples env (calls + 2)%nat n'
  end.

(** The last [n] elements of a list. *)
Definition lastn {A : Type} (n : nat) (l : list A) : list A :=
  skipn (List.length l - n) l.

(** A call that re-enables one of the two buttons. *)
Definition is_enable (c : Maintenance.call) : bool :=
  match c with
  | Maintenance.button_config _ Maintenance.NORMAL => true
  | _ => false
  end.

(** No call of the trace re-enables a button. *)
Definition keeps_disabled (t : Maintenance.trace) : bool :=
  forallb (fun ev => negb (is_enable (Maintenance.action ev))) t.

(** Every re-enabling call is followed by no further command. *)
Fixpoint guard_held (t : Maintenance.trace) : bool :=
  match t with
  | [] => true
  | ev :: later =>
      (negb (is_enable (Maintenance.action ev))
       || match Maintenance.spawns later with [] => true | _ => false end)
      && guard_held later
  end.

(** The entry a partition contributes to the result of [get_disk_info]:
    none when it is skipped or its usage query raises. *)
Definition listed (o : DiskInfo.os) (partition : DiskInfo.sdiskpart)
  : list DiskInfo.partition_info :=
  if DiskInfo.skipped_on_nt o partition then []
  else
    match DiskInfo.disk_usage o (DiskInfo.mountpoint partition) with
    | Ok usage => [DiskInfo.entry partition usage]
    | Raise _ => []
    end.

(** The text the read loop adds to the log: each non-empty read,
    stripped, on a line of its own. *)
Fixpoint logged (reads : list string) : string :=
  match reads with
  | [] => ""
  | output :: later =>
      (if truthy output then strip output ++ nl else "") ++ logged later
  end.

End Readings.

(** ** Further concrete inputs *)

Module MoreSamples.
Import Py.

Definition march_2024 : Calendar.cal :=
  {| Calendar.current_month := 3;
     Calendar.current_year := 2024;
     Calendar.current_month_label := "";
     Calendar.calendar_display := "" |}.

Definition december_2024 : Calendar.cal :=
  {| Calendar.current_month := 12;
     Calendar.current_year := 2024;
     Calendar.current_month_label := "";
     Calendar.calendar_display := "" |}.

(** A stand-in for the rendering of [calendar.month]. *)
Definition blank_month (year month : Z) : string := "".

(** Root; both [apt] commands print a line and exit with code 0. *)
Definition all_good : Maintenance.world :=
  {| Maintenance.geteuid := 0;
     Maintenance.popen := fun _ =>
       Maintenance.spawned ["Reading package lists..." ++ nl] (Maintenance.exits 0);
     Maintenance.run := fun _ => Ok 0 |}.

(** Root; [apt update] succeeds, [apt upgrade -y] exits with code 100. *)
Definition upgrade_fails : Maintenance.world :=
  {| Maintenance.geteuid := 0;
     Maintenance.popen := fun argv =>
       if list_eq_dec string_dec argv ["apt"; "upgrade"; "-y"]
       then Maintenance.spawned ["E: broken packages" ++ nl] (Maintenance.exits 100)
       else Maintenance.spawned [] (Maintenance.exits 0);
     Maintenance.run := fun _ => Ok 0 |}.

(** Root; the [apt] commands succeed and [rm] exits with code 1. *)
Definition rm_fails : Maintenance.world :=
  {| Maintenance.geteuid := 0;
     Maintenance.popen := fun _ => Maintenance.spawned [] (Maintenance.exits 0);
     Maintenance.run := fun _ => Ok 1 |}.

(** A machine reporting a 3.6 GHz maximum and no current frequency. *)
Definition desktop_cpu : CpuInfo.psutil :=
  {| CpuInfo.cpu_percent := 25 # 2;
     CpuInfo.cpu_freq :=
       Some {| CpuInfo.current := 0; CpuInfo.min := 800; CpuInfo.max := 3600 |};
     CpuInfo.cpu_count_physical := Some 4;
     CpuInfo.cpu_count_logical := Some 8 |}.

(** Two partitions on a POSIX system; the second usage query fails with an
    error that is not a permission error. *)
Definition stale_mount : DiskInfo.os :=
  {| DiskInfo.os_name := "posix";
     DiskInfo.disk_partitions :=
       [ {| DiskInfo.device := "/dev/sda1"; DiskInfo.mountpoint := "/";
            DiskInfo.fstype := "ext4"; DiskInfo.opts := "rw" |};
         {| DiskInfo.device := "server:/export"; DiskInfo.mountpoint := "/mnt/nfs";
            DiskInfo.fstype := "nfs"; DiskInfo.opts := "rw" |} ];
     DiskInfo.disk_usage := fun mp =>
       if String.eqb mp "/mnt/nfs"
       then Raise (mk_exn OtherException "[Errno 116] Stale file handle")
       else Ok {| DiskInfo.total := 1000; DiskInfo.used := 400;
                  DiskInfo.free := 600; DiskInfo.percent := 40 |} |}.

(** The readings of [Samples.moving_provider] on a machine whose disk
    queries see the stale mount from the third query on. *)
Definition stale_provider : Poller.psutil :=
  {| Poller.cpu_percent := Poller.cpu_percent Samples.moving_provider;
     Poller.virtual_memory_percent :=
       Poller.virtual_memory_percent Samples.moving_provider;
     Poller.hosts := fun _ => Samples.workstation;
     Poller.disks := fun k =>
       match k with
       | O | S O => Samples.laptop
       | _ => stale_mount
       end |}.

(** The same readings on a machine whose every disk query sees the stale
    mount. *)
Definition stale_only : Poller.psutil :=
  {| Poller.cpu_percent := Poller.cpu_percent Samples.moving_provider;
     Poller.virtual_memory_percent :=
       Poller.virtual_memory_percent Samples.moving_provider;
     Poller.hosts := fun _ => Samples.workstation;
     Poller.disks := fun _ => stale_mount |}.

End MoreSamples.

(** ** Arithmetic facts used by the uptime proof *)

Section PyNumFacts.
Import PyNum.

Lemma int_inject_Z (z : Z) : int (inject_Z z) = z.
Proof.
  unfold int.
  destruct (Qle_bool 0 (inject_Z z)).
  - apply Qfloor_Z.
  - apply Qceiling_Z.
Qed.

Lemma floordiv_inject_Z (a : Z) (p : positive) :
  floordiv (inject_Z a) (inject_Z (Zpos p)) = inject_Z (a / Zpos p).
Proof.
  unfold floordiv. f_equal.
  unfold Qdiv, Qmult, Qinv, inject_Z, Qfloor. simpl.
  now rewrite Z.mul_1_r.
Qed.

Lemma pymod_inject_Z (a : Z) (p : positive) :
  (pymod (inject_Z a) (inject_Z (Zpos p)) == inject_Z (a mod Zpos p))%Q.
Proof.
  unfold pymod. rewrite floordiv_inject_Z.
  unfold Qminus.
  rewrite <- inject_Z_mult, <- inject_Z_opp, <- inject_Z_plus.
  rewrite Z.mod_eq by discriminate.
  apply inject_Z_injective. lia.
Qed.

Lemma floordiv_pymod_inject_Z (a : Z) (p q : positive) :
  int (floordiv (pymod (inject_Z a) (inject_Z (Zpos p))) (inject_Z (Zpos q)))
  = (a mod Zpos p) / Zpos q.
Proof.
  rewrite <- (int_inject_Z ((a mod Zpos p) / Zpos q)).
  rewrite <- floordiv_inject_Z.
  unfold floordiv. f_equal. f_equal.
  apply Qfloor_comp.
  now rewrite pymod_inject_Z.
Qed.

End PyNumFacts.

(** ** Uptime *)

Section Uptime.
Import PyNum HostInfo.

Example uptime_93784 : uptime (inject_Z 93784) = "1d 2h 3m".
Proof. vm_compute. reflexivity. Qed.

Example uptime_half_second : uptime (119 # 2) = "0d 0h 0m".
Proof. vm_compute. reflexivity. Qed.

Lemma days_whole (s : Z) : days (inject_Z s) = s / 86400.
Proof.
  unfold days. change (24 * 3600) with 86400.
  now rewrite floordiv_inject_Z, int_inject_Z.
Qed.

Lemma hours_whole (s : Z) : hours (inject_Z s) = (s mod 86400) / 3600.
Proof.
  unfold hours. change (24 * 3600) with 86400.
  apply floordiv_pymod_inject_Z.
Qed.

Lemma minutes_whole (s : Z) : minutes (inject_Z s) = (s mod 3600) / 60.
Proof. unfold minutes. apply floordiv_pymod_inject_Z. Qed.

(** C10. For a whole, non-negative number of seconds [s] the uptime entry
    of [get_system_info] is "Dd Hh Mm" with [D = s div 86400],
    [H = (s mod 86400) div 3600] and [M = (s mod 3600) div 60]; the hours
    stay below 24, the minutes below 60, and the three fields locate [s]
    within one minute. *)
Theorem uptime_whole_seconds (s : Z) (Hs : 0 <= s) :
  let D := s / 86400 in
  let H := (s mod 86400) / 3600 in
  let M := (s mod 3600) / 60 in
  uptime (inject_Z s) = str D ++ "d " ++ str H ++ "h " ++ str M ++ "m"
  /\ 0 <= D
  /\ 0 <= H < 24
  /\ 0 <= M < 60
  /\ D * 86400 + H * 3600 + M * 60 <= s < D * 86400 + H * 3600 + (M + 1) * 60.
Proof.
  intros D H M. split.
  - unfold uptime. now rewrite days_whole, hours_whole, minutes_whole.
  - subst D H M. Z.div_mod_to_equations. lia.
Qed.

Lemma uptime_whole_seconds_witness :
  uptime (inject_Z 200000) = "2d 7h 33m"
  /\ 2 * 86400 + 7 * 3600 + 33 * 60 <= 200000 < 2 * 86400 + 7 * 3600 + 34 * 60.
Proof.
  destruct (uptime_whole_seconds 200000 ltac:(lia)) as (Hstr & _ & _ & _ & Hloc).
  split.
  - rewrite Hstr. vm_compute. reflexivity.
  - exact Hloc.
Defined.

End Uptime.

(** ** HistoryBuffer *)

Section History.
Import Py Poller Samples.

Lemma push_cons (x : Q) (rest : list Q) (v : Q) :
  push (x :: rest) v = Ok (rest ++ [v])%list.
Proof. reflexivity. Qed.

Lemma push_length (h : list Q) (v : Q) (n : nat) :
  List.length h = S n ->
  exists h', push h v = Ok h' /\ List.length h' = S n /\ last h' 0%Q = v.
Proof.
  destruct h as [|x rest]; [discriminate|]. intros Hlen.
  exists (rest ++ [v])%list. repeat split.
  - rewrite length_app. simpl in *. lia.
  - apply last_last.
Qed.

(** While no more values arrive than the list holds, the list is what is
    left of the old content followed by the new values. *)
Lemma push_all_window (values h : list Q) :
  (List.length values <= List.length h)%nat ->
  push_all h values = Ok (skipn (List.length values) h ++ values)%list.
Proof.
  revert h. induction values as [|v later IH]; intros h Hlen.
  - simpl. now rewrite app_nil_r.
  - destruct h as [|x rest]; [simpl in Hlen; lia|].
    change (push_all (x :: rest) (v :: later))
      with (push_all (rest ++ [v]) later).
    rewrite IH.
    + f_equal. simpl List.length. simpl skipn.
      rewrite skipn_app.
      replace (List.length later - List.length rest)%nat with 0%nat by (simpl in Hlen; lia).
      simpl. now rewrite <- app_assoc.
    + rewrite length_app. simpl in *. lia.
Qed.

Lemma push_all_app (h : list Q) (first second : list Q) :
  push_all h (first ++ second) =
  match push_all h first with
  | Ok h' => push_all h' second
  | Raise e => Raise e
  end.
Proof.
  revert h. induction first as [|v later IH]; intros h; simpl.
  - reflexivity.
  - destruct (push h v); [apply IH | reflexivity].
Qed.

(** C4, as stated, fails on the program's own capacity: after exactly 60
    appends the first appended value is still there, at index 0, and it
    differs from the second appended value. *)
Lemma fifo_after_capacity_counterexample :
  exists snapshot,
    push_all (filled 60) one_to_sixty = Ok snapshot
    /\ nth_error one_to_sixty 0 = Some 1%Q
    /\ nth_error one_to_sixty 1 = Some 2%Q
    /\ nth_error snapshot 0 = Some 1%Q
    /\ nth_error snapshot 0 <> nth_error one_to_sixty 1.
Proof.
  exists one_to_sixty. repeat split; try reflexivity.
  vm_compute. discriminate.
Qed.

(** C4, amended. On a full buffer of capacity [C >= 1], after appending [v]
    and [C - 1] more values the buffer holds exactly the appended values,
    [v] at index 0; one further append evicts [v], and the buffer then
    starts with the second appended value. *)
Theorem fifo_after_capacity (h : list Q) (v : Q) (more : list Q) (w : Q) :
  List.length h = S (List.length more) ->
  push_all h (v :: more) = Ok (v :: more)
  /\ push_all h (v :: more ++ [w]) = Ok (more ++ [w])%list
  /\ nth_error (more ++ [w]) 0 = nth_error (v :: more ++ [w]) 1.
Proof.
  intros Hlen.
  assert (Hfull : push_all h (v :: more) = Ok (v :: more)).
  { rewrite push_all_window by (simpl; lia).
    simpl List.length. rewrite <- Hlen, skipn_all. reflexivity. }
  split; [exact Hfull|]. split; [|reflexivity].
  change (v :: more ++ [w])%list with ((v :: more) ++ [w])%list.
  rewrite push_all_app, Hfull. reflexivity.
Qed.

Lemma fifo_after_capacity_witness :
  push_all (filled 3) [5; 6; 7]%Q = Ok [5; 6; 7]%Q
  /\ push_all (filled 3) [5; 6; 7; 8]%Q = Ok [6; 7; 8]%Q.
Proof.
  destruct (fifo_after_capacity (filled 3) 5 [6; 7]%Q 8 eq_refl) as (H1 & H2 & _).
  split; [exact H1 | exact H2].
Defined.

End History.

(** ** Poller *)

Section PollerFacts.
Import Py Poller Samples.

(** What one tick does to the histories, the dashboard and the counters,
    and how it ends. *)
Lemma tick_value (env : psutil) (tab : nat) (st st' : app) (r : result unit)
    (c : Q) (cs : list Q) (m : Q) (ms : list Q) :
  cpu_usage_history st = c :: cs ->
  memory_usage_history st = m :: ms ->
  update_system_info env tab st = (st', r) ->
  let first := DiskInfo.get_disk_info (disks env (disk_calls (made st))) in
  let second := DiskInfo.get_disk_info (disks env (S (disk_calls (made st)))) in
  cpu_usage_history st'
  = (cs ++ [cpu_percent env (cpu_percent_calls (made st))])%list
  /\ memory_usage_history st'
     = (ms ++ [virtual_memory_percent env (virtual_memory_calls (made st))])%list
  /\ cpu_line_ydata (shown st') = cpu_usage_history st'
  /\ memory_line_ydata (shown st') = memory_usage_history st'
  /\ cpu_progress (shown st')
     = cpu_percent env (S (cpu_percent_calls (made st)))
  /\ memory_progress (shown st')
     = virtual_memory_percent env (S (virtual_memory_calls (made st)))
  /\ dashboard_updates (made st') = S (dashboard_updates (made st))
  /\ virtual_memory_calls (made st') = (virtual_memory_calls (made st) + 2)%nat
  /\ cpu_percent_calls (made st')
     = (cpu_percent_calls (made st) + 2
        + match first with
          | Ok _ => if Nat.eqb tab 1 then 1 else 0
          | Raise _ => 0
          end)%nat
  /\ r = match first with
         | Raise e => Raise e
         | Ok _ =>
             if Nat.eqb tab 2
             then match second with Ok _ => Ok tt | Raise e => Raise e end
             else Ok tt
         end
  /\ disk_calls (made st')
     = (disk_calls (made st) + 1
        + match first with
          | Ok _ => if Nat.eqb tab 2 then 1 else 0
          | Raise _ => 0
          end)%nat
  /\ system_info_calls (made st')
     = (system_info_calls (made st) + 1
        + match first with
          | Ok _ => if Nat.eqb tab 1 then 1 else 0
          | Raise _ => 0
          end)%nat
  /\ disk_info_text (shown st')
     = match first with
       | Ok partitions => partitions
       | Raise _ => disk_info_text (shown st)
       end
  /\ (forall e, first = Raise e -> tabs_shown st' = tabs_shown st).
Proof.
  intros Hc Hm.
  destruct st as [ch mh sh tb [a b s d u]].
  cbn [cpu_usage_history memory_usage_history] in Hc, Hm. subst ch mh.
  unfold update_system_info, update_dashboard, update_system_page,
    update_disk_info, get_cpu_info, get_memory_info, get_system_info,
    get_disk_info.
  cbn -[DiskInfo.get_disk_info system_info_of Nat.eqb Nat.add].
  destruct (DiskInfo.get_disk_info (disks env d)) as [partitions|e].
  - destruct (Nat.eqb tab 1); destruct (Nat.eqb tab 2);
      cbn -[DiskInfo.get_disk_info system_info_of Nat.add];
      try destruct (DiskInfo.get_disk_info (disks env (S d)));
      intros H; injection H as <- <-;
      cbn -[DiskInfo.get_disk_info system_info_of Nat.add];
      repeat apply conj; try reflexivity; try lia;
      intros ? H; discriminate H.
  - intros H; injection H as <- <-.
    cbn -[DiskInfo.get_disk_info system_info_of Nat.add].
    repeat apply conj; try reflexivity; lia.
Qed.
Lemma ticks_cons (env : psutil) (tab : nat) (later : list nat) (st st' : app)
    (r : result unit) :
  update_system_info env tab st = (st', r) ->
  ticks env (tab :: later) st
  = match r with
    | Ok _ => ticks env later st'
    | Raise e => (st', Raise e)
    end.
Proof. intros E. cbn [ticks]. rewrite E. now destruct r. Qed.

Lemma ticks_lengths (env : psutil) (tabs : list nat) :
  forall (st : app) (n k : nat),
    List.length (cpu_usage_history st) = S n ->
    List.length (memory_usage_history st) = S k ->
    List.length (cpu_usage_history (fst (ticks env tabs st))) = S n
    /\ List.length (memory_usage_history (fst (ticks env tabs st))) = S k.
Proof.
  induction tabs as [|tab later IH]; intros st n k Hc Hm.
  - now split.
  - destruct (cpu_usage_history st) as [|c cs] eqn:Ec; [discriminate|].
    destruct (memory_usage_history st) as [|m ms] eqn:Em; [discriminate|].
    destruct (update_system_info env tab st) as [st1 r] eqn:E.
    destruct (tick_value env tab st st1 r c cs m ms Ec Em E) as (Hc1 & Hm1 & _).
    assert (Lc : List.length (cpu_usage_history st1) = S n).
    { rewrite Hc1, length_app. simpl in *. lia. }
    assert (Lm : List.length (memory_usage_history st1) = S k).
    { rewrite Hm1, length_app. simpl in *. lia. }
    rewrite (ticks_cons env tab later st st1 r E).
    destruct r as [u|e].
    + now apply IH.
    + now split.
Qed.

Lemma ticks_complete (env : psutil) (tabs : list nat) :
  (forall k, exists l, DiskInfo.get_disk_info (disks env k) = Ok l) ->
  forall st,
    cpu_usage_history st <> [] ->
    memory_usage_history st <> [] ->
    snd (ticks env tabs st) = Ok tt.
Proof.
  intros Hdisks. induction tabs as [|tab later IH]; intros st Hc Hm.
  - reflexivity.
  - destruct (cpu_usage_history st) as [|c cs] eqn:Ec; [congruence|].
    destruct (memory_usage_history st) as [|m ms] eqn:Em; [congruence|].
    destruct (update_system_info env tab st) as [st1 r] eqn:E.
    destruct (tick_value env tab st st1 r c cs m ms Ec Em E)
      as (Hc1 & Hm1 & _ & _ & _ & _ & _ & _ & _ & Hr & _).
    destruct (Hdisks (disk_calls (made st))) as [l1 E1].
    destruct (Hdisks (S (disk_calls (made st)))) as [l2 E2].
    rewrite E1, E2 in Hr.
    assert (Hok : r = Ok tt) by (rewrite Hr; now destruct (Nat.eqb tab 2)).
    rewrite (ticks_cons env tab later st st1 r E), Hok. apply IH.
    + rewrite Hc1. now destruct cs.
    + rewrite Hm1. now destruct ms.
Qed.

(** C5. Whatever the operating system answers and whichever tabs are
    selected, the attributes reached after any number of wake-ups (also
    when a tick raised and the timer was not re-armed) hold exactly 60
    values in each history; the evict-then-append keeps the length at
    every tick. When no disk query raises, every tick ends normally. *)
Theorem history_length_invariant (env : psutil) (tabs : list nat) :
  List.length (cpu_usage_history (fst (ticks env tabs init))) = 60%nat
  /\ List.length (memory_usage_history (fst (ticks env tabs init))) = 60%nat
  /\ ((forall k, exists l, DiskInfo.get_disk_info (disks env k) = Ok l) ->
      snd (ticks env tabs init) = Ok tt).
Proof.
  destruct (ticks_lengths env tabs init 59 59 eq_refl eq_refl) as [Hc Hm].
  split; [exact Hc|]. split; [exact Hm|].
  intros Hdisks. apply ticks_complete; [exact Hdisks | discriminate | discriminate].
Qed.

Lemma history_length_invariant_witness :
  List.length
    (cpu_usage_history (fst (ticks moving_provider [0; 1; 2; 0]%nat init)))
  = 60%nat
  /\ snd (ticks moving_provider [0; 1; 2; 0]%nat init) = Ok tt.
Proof.
  destruct (history_length_invariant moving_provider [0; 1; 2; 0]%nat)
    as (Hc & _ & Hok).
  split; [exact Hc|].
  apply Hok. intros k. eexists. reflexivity.
Defined.

(** C2, as stated, fails: on the first tick with that environment the
    tick ends normally and the history ends in 42.5, yet the CPU
    percentage was asked for twice and the dashboard shows 50. *)
Lemma tick_single_query_counterexample :
  exists st,
    update_system_info moving_provider 0 init = (st, Ok tt)
    /\ last (cpu_usage_history st) 0%Q = 85 # 2
    /\ dashboard_updates (made st) = 1%nat
    /\ cpu_percent_calls (made st) <> 1%nat
    /\ virtual_memory_calls (made st) <> 1%nat
    /\ ~ (cpu_progress (shown st) == 85 # 2)%Q.
Proof.
  eexists. split; [reflexivity|].
  repeat split; vm_compute; discriminate.
Qed.

(** C2, amended. On every tick the CPU percentage and the memory
    percentage are each asked for once by [update_system_info] and once
    more by [update_dashboard]; a third CPU query follows when tab 1 is
    shown and the dashboard refresh did not raise. The first answers
    become the last elements of the two histories; [update_dashboard] is
    entered exactly once, its charts receive those histories, and its
    gauges show the second answers. *)
Theorem tick_queries_and_dashboard (env : psutil) (tab : nat) (st st' : app)
    (r : result unit) :
  cpu_usage_history st <> [] ->
  memory_usage_history st <> [] ->
  update_system_info env tab st = (st', r) ->
  cpu_percent_calls (made st')
  = (cpu_percent_calls (made st) + 2
     + match DiskInfo.get_disk_info (disks env (disk_calls (made st))) with
       | Ok _ => if Nat.eqb tab 1 then 1 else 0
       | Raise _ => 0
       end)%nat
  /\ virtual_memory_calls (made st') = (virtual_memory_calls (made st) + 2)%nat
  /\ last (cpu_usage_history st') 0%Q
     = cpu_percent env (cpu_percent_calls (made st))
  /\ last (memory_usage_history st') 0%Q
     = virtual_memory_percent env (virtual_memory_calls (made st))
  /\ dashboard_updates (made st') = S (dashboard_updates (made st))
  /\ last (cpu_line_ydata (shown st')) 0%Q
     = cpu_percent env (cpu_percent_calls (made st))
  /\ last (memory_line_ydata (shown st')) 0%Q
     = virtual_memory_percent env (virtual_memory_calls (made st))
  /\ cpu_progress (shown st')
     = cpu_percent env (S (cpu_percent_calls (made st)))
  /\ memory_progress (shown st')
     = virtual_memory_percent env (S (virtual_memory_calls (made st))).
Proof.
  intros Hc Hm E.
  destruct (cpu_usage_history st) as [|c cs] eqn:Ec; [congruence|].
  destruct (memory_usage_history st) as [|m ms] eqn:Em; [congruence|].
  destruct (tick_value env tab st st' r c cs m ms Ec Em E)
    as (Hc1 & Hm1 & Yc & Ym & Pc & Pm & Du & Cm & Cc & _).
  rewrite Yc, Ym, Hc1, Hm1, !last_last.
  repeat split; assumption.
Qed.

Lemma tick_queries_and_dashboard_witness :
  exists st',
    update_system_info moving_provider 1 init = (st', Ok tt)
    /\ cpu_percent_calls (made st') = 3%nat
    /\ last (cpu_usage_history st') 0%Q = 85 # 2
    /\ cpu_progress (shown st') = 50%Q.
Proof.
  eexists. split; [reflexivity|].
  destruct (tick_queries_and_dashboard moving_provider 1 init _ _
              ltac:(discriminate) ltac:(discriminate) eq_refl)
    as (Cc & _ & Lc & _ & _ & _ & _ & Pc & _).
  split; [exact Cc|]. split; [exact Lc | exact Pc].
Defined.

End PollerFacts.

(** ** Disk partitions *)

Section DiskFacts.
Import Py DiskInfo Samples.

Lemma entry_accessible (o : os) (partition : sdiskpart) (usage : sdiskusage) :
  disk_usage o (mountpoint partition) = Ok usage ->
  permission_denied o (pi_mountpoint (entry partition usage)) = false.
Proof. intros H. unfold permission_denied. simpl. now rewrite H. Qed.

Lemma scan_ok (o : os) (todo : list sdiskpart) :
  forall acc l,
    scan o todo acc = Ok l ->
    exists added,
      l = (acc ++ added)%list
      /\ (List.length added <= List.length todo)%nat
      /\ Forall (fun p => permission_denied o (pi_mountpoint p) = false) added.
Proof.
  induction todo as [|partition rest IH]; intros acc l H; simpl in H.
  - exists []. inversion H. rewrite app_nil_r. repeat split; auto.
  - destruct (skipped_on_nt o partition).
    + destruct (IH _ _ H) as (added & -> & Hlen & Hall).
      exists added. repeat split; auto. simpl. lia.
    + destruct (disk_usage o (mountpoint partition)) as [usage|e] eqn:Eu.
      * destruct (IH _ _ H) as (added & -> & Hlen & Hall).
        exists (entry partition usage :: added). repeat split.
        -- now rewrite <- app_assoc.
        -- simpl. lia.
        -- constructor; [now apply entry_accessible | exact Hall].
      * destruct (is_permission_error e); [|discriminate].
        destruct (IH _ _ H) as (added & -> & Hlen & Hall).
        exists added. repeat split; auto. simpl. lia.
Qed.

Lemma scan_raise (o : os) (todo : list sdiskpart) :
  forall acc e, scan o todo acc = Raise e -> is_permission_error e = false.
Proof.
  induction todo as [|partition rest IH]; intros acc e H; simpl in H.
  - discriminate.
  - destruct (skipped_on_nt o partition); [now apply IH in H|].
    destruct (disk_usage o (mountpoint partition)) as [usage|e'] eqn:Eu.
    + now apply IH in H.
    + destruct (is_permission_error e') eqn:Ep; [now apply IH in H|].
      congruence.
Qed.

Lemma scan_total (o : os) (todo : list sdiskpart) :
  existsb (fails_otherwise o) todo = false ->
  forall acc, exists l, scan o todo acc = Ok l.
Proof.
  induction todo as [|partition rest IH]; intros H acc; simpl.
  - now exists acc.
  - simpl in H. apply orb_false_elim in H. destruct H as [Hp Hrest].
    unfold fails_otherwise in Hp.
    destruct (skipped_on_nt o partition); [now apply IH|].
    destruct (disk_usage o (mountpoint partition)) as [usage|e]; [now apply IH|].
    simpl in Hp. apply negb_false_iff in Hp. rewrite Hp. now apply IH.
Qed.

(** C8. [get_disk_info] never ends in a [PermissionError]; when every
    failing usage query fails with a permission error it returns a list;
    and a returned list is no longer than the list of partitions the system
    reported and holds no entry for a mount point whose query was denied. *)
Theorem get_disk_info_skips_denied (o : os) :
  (forall e, get_disk_info o = Raise e -> is_permission_error e = false)
  /\ (existsb (fails_otherwise o) (disk_partitions o) = false ->
      exists l, get_disk_info o = Ok l)
  /\ (forall l, get_disk_info o = Ok l ->
        (List.length l <= List.length (disk_partitions o))%nat
        /\ Forall (fun p => permission_denied o (pi_mountpoint p) = false) l).
Proof.
  unfold get_disk_info. split; [|split].
  - intros e H. exact (scan_raise _ _ _ _ H).
  - intros H. now apply scan_total.
  - intros l H. destruct (scan_ok _ _ _ _ H) as (added & -> & Hlen & Hall).
    simpl. now split.
Qed.

Lemma get_disk_info_skips_denied_witness :
  exists l,
    get_disk_info laptop = Ok l
    /\ (List.length l <= 3)%nat
    /\ map pi_mountpoint l = ["/"; "/home"].
Proof.
  destruct (get_disk_info_skips_denied laptop) as (_ & Htotal & Hlen).
  destruct (Htotal eq_refl) as (l & El).
  exists l. split; [exact El|]. split.
  - exact (proj1 (Hlen l El)).
  - vm_compute in El. injection El as <-. reflexivity.
Defined.

End DiskFacts.

(** ** Maintenance operations *)

Section MaintenanceFacts.
Import Py Maintenance Samples.
Local Open Scope list_scope.

Local Notation "x <- m ;; k" := (bind m (fun x => k))
  (at level 61, m at next level, right associativity).
Local Notation "m ;; k" := (bind m (fun _ => k))
  (at level 61, right associativity).

(** *** Traces of composed statements *)

Lemma read_loop_ok (me : thread) (reads : list string) :
  snd (read_loop me reads) = Ok tt.
Proof.
  induction reads as [|output later IH]; simpl; [reflexivity|].
  destruct (read_loop me later) as [t r]. simpl in IH. subst r.
  now destruct (truthy output).
Qed.

Lemma read_loop_eta (me : thread) (reads : list string) :
  read_loop me reads = (fst (read_loop me reads), Ok tt).
Proof.
  rewrite <- (read_loop_ok me reads). now destruct (read_loop me reads).
Qed.

Lemma spawns_app (t t' : trace) : spawns (t ++ t') = (spawns t ++ spawns t')%list.
Proof.
  induction t as [|ev later IH]; simpl; [reflexivity|].
  destruct (action ev); simpl; now rewrite IH.
Qed.

Lemma dialogs_app (t t' : trace) : dialogs (t ++ t') = (dialogs t ++ dialogs t')%list.
Proof.
  induction t as [|ev later IH]; simpl; [reflexivity|].
  destruct (action ev); simpl; now rewrite IH.
Qed.

Lemma read_loop_quiet (me : thread) (reads : list string) :
  spawns (fst (read_loop me reads)) = [] /\ dialogs (fst (read_loop me reads)) = [].
Proof.
  induction reads as [|output later [IHs IHd]]; simpl; [now split|].
  rewrite (read_loop_eta me later).
  destruct (truthy output); simpl; now split.
Qed.

Lemma replay_app (t t' : trace) (ws : widgets) :
  replay (t ++ t') ws = replay t' (replay t ws).
Proof. apply fold_left_app. Qed.

(** *** The try / except / finally frame shared by both workers *)


(** *** Missing privilege *)

Lemma update_body_denied (me : thread) (w : world) :
  geteuid w <> 0 -> update_body me w = permission_denied me.
Proof.
  intros H. unfold update_body.
  apply Z.eqb_neq in H. now rewrite H.
Qed.

Lemma cleanup_body_denied (me : thread) (w : world) :
  geteuid w <> 0 -> cleanup_body me w = permission_denied me.
Proof.
  intros H. unfold cleanup_body.
  apply Z.eqb_neq in H. now rewrite H.
Qed.

(** C3. When the effective user is not root, each worker function only
    logs the root-privileges message, opens the "Permission Error" dialog
    and re-enables the buttons: it hands no command to the operating
    system and ends without an exception. *)
Theorem no_privilege_no_spawn (me : thread) (w : world) :
  geteuid w <> 0 ->
  let denied :=
    (fst (permission_denied me) ++ fst (enable_buttons me), Ok tt) in
  _run_system_update_thread me w = denied
  /\ _run_system_cleanup_thread me w = denied
  /\ spawns (fst denied) = []
  /\ dialogs (fst denied) = [(true, "Permission Error"%string, root_needed)].
Proof.
  intros H denied.
  unfold _run_system_update_thread, _run_system_cleanup_thread.
  rewrite update_body_denied, cleanup_body_denied by assumption.
  repeat split.
Qed.

Lemma no_privilege_no_spawn_witness :
  spawns (fst (_run_system_update_thread WorkerThread unprivileged)) = []
  /\ spawns (fst (_run_system_cleanup_thread WorkerThread unprivileged)) = [].
Proof.
  destruct (no_privilege_no_spawn WorkerThread unprivileged) as (Hu & Hc & Hs & _).
  - simpl. discriminate.
  - rewrite Hu, Hc. split; exact Hs.
Defined.

(** *** A failing package-index refresh *)



(** *** The worker boundary *)



(** *** Cleanup with a failing step *)

(** C1. Run as root with [apt clean] succeeding, [apt autoremove -y]
    exiting with code 2 and [rm] succeeding, the cleanup worker still
    starts all three commands, opens no error dialog and announces
    "System cleanup completed successfully!". *)
Theorem cleanup_ignores_failed_step :
  spawns (fst (_run_system_cleanup_thread WorkerThread autoremove_fails))
  = [ ["apt"; "clean"]; ["apt"; "autoremove"; "-y"]; ["rm"; "-rf"; "/tmp/*"] ]%string
  /\ dialogs (fst (_run_system_cleanup_thread WorkerThread autoremove_fails))
     = [(false, "Cleanup Complete", "System cleanup completed successfully!")%string]
  /\ snd (_run_system_cleanup_thread WorkerThread autoremove_fails) = Ok tt.
Proof. vm_compute. repeat split. Qed.

End MaintenanceFacts.

(** ** Uptime of a fractional number of seconds *)

Section UptimeFraction.
Import PyNum HostInfo.

Lemma Qfloor_unique (x : Q) (z : Z) :
  (inject_Z z <= x)%Q -> (x < inject_Z (z + 1))%Q -> Qfloor x = z.
Proof.
  intros Hle Hlt.
  assert (H1 : z <= Qfloor x).
  { rewrite <- (Qfloor_Z z). now apply Qfloor_resp_le. }
  assert (H2 : Qfloor x < z + 1).
  { rewrite Zlt_Qlt. eapply Qle_lt_trans; [apply Qfloor_le | exact Hlt]. }
  lia.
Qed.

Lemma Qfloor_minus_Z (x : Q) (z : Z) : Qfloor (x - inject_Z z) = Qfloor x - z.
Proof.
  apply Qfloor_unique.
  - unfold Zminus. rewrite inject_Z_plus, inject_Z_opp. unfold Qminus.
    apply Qplus_le_l. apply Qfloor_le.
  - replace (Qfloor x - z + 1) with ((Qfloor x + 1) + - z) by lia.
    rewrite inject_Z_plus, inject_Z_opp. unfold Qminus.
    apply Qplus_lt_l. apply Qlt_floor.
Qed.

Lemma Qfloor_div_pos (x : Q) (p : positive) :
  Qfloor (x / inject_Z (Zpos p)) = Qfloor x / Zpos p.
Proof.
  destruct x as [a b]. unfold Qdiv, Qinv, Qmult, Qfloor, inject_Z. simpl.
  rewrite Z.mul_1_r, Pos2Z.inj_mul, Z.div_div by lia. reflexivity.
Qed.

Lemma floordiv_pos (x : Q) (p : positive) :
  floordiv x (inject_Z (Zpos p)) = inject_Z (Qfloor x / Zpos p).
Proof. unfold floordiv. now rewrite Qfloor_div_pos. Qed.

Lemma Qfloor_pymod (x : Q) (p : positive) :
  Qfloor (pymod x (inject_Z (Zpos p))) = Qfloor x mod Zpos p.
Proof.
  unfold pymod. rewrite floordiv_pos.
  rewrite (Qfloor_comp _ (x - inject_Z (Zpos p * (Qfloor x / Zpos p)))).
  - rewrite Qfloor_minus_Z. rewrite Z.mod_eq by discriminate. reflexivity.
  - now rewrite inject_Z_mult.
Qed.

Lemma field_of_fraction (x : Q) (p q : positive) :
  int (floordiv (pymod x (inject_Z (Zpos p))) (inject_Z (Zpos q)))
  = (Qfloor x mod Zpos p) / Zpos q.
Proof. now rewrite floordiv_pos, int_inject_Z, Qfloor_pymod. Qed.

(** X1. The fraction of a second plays no part in the uptime entry: for
    every rational number of seconds the three fields, and so the string,
    are those of its floor. *)
Theorem uptime_ignores_fraction (uptime_seconds : Q) :
  days uptime_seconds = Qfloor uptime_seconds / 86400
  /\ hours uptime_seconds = (Qfloor uptime_seconds mod 86400) / 3600
  /\ minutes uptime_seconds = (Qfloor uptime_seconds mod 3600) / 60
  /\ uptime uptime_seconds = uptime (inject_Z (Qfloor uptime_seconds)).
Proof.
  assert (Hd : days uptime_seconds = Qfloor uptime_seconds / 86400).
  { unfold days. change (24 * 3600) with 86400.
    now rewrite floordiv_pos, int_inject_Z. }
  assert (Hh : hours uptime_seconds = (Qfloor uptime_seconds mod 86400) / 3600).
  { unfold hours. change (24 * 3600) with 86400. apply field_of_fraction. }
  assert (Hm : minutes uptime_seconds = (Qfloor uptime_seconds mod 3600) / 60).
  { unfold minutes. apply field_of_fraction. }
  repeat split; try assumption.
  unfold uptime.
  now rewrite Hd, Hh, Hm, days_whole, hours_whole, minutes_whole.
Qed.

End UptimeFraction.

(** ** The content of the partition list *)

Section DiskContent.
Import Py DiskInfo Readings MoreSamples.

Lemma scan_content (o : os) (todo : list sdiskpart) :
  forall acc l,
    scan o todo acc = Ok l -> l = (acc ++ flat_map (listed o) todo)%list.
Proof.
  induction todo as [|partition rest IH]; intros acc l H; simpl in H.
  - inversion H. now rewrite app_nil_r.
  - simpl. unfold listed at 1.
    destruct (skipped_on_nt o partition); [now apply IH|].
    destruct (disk_usage o (mountpoint partition)) as [usage|e].
    + rewrite (IH _ _ H). now rewrite <- app_assoc.
    + destruct (is_permission_error e); [now apply IH | discriminate].
Qed.

Lemma scan_first_failure (o : os) (todo : list sdiskpart) :
  forall acc e,
    scan o todo acc = Raise e ->
    exists before partition after,
      todo = (before ++ partition :: after)%list
      /\ existsb (fails_otherwise o) before = false
      /\ skipped_on_nt o partition = false
      /\ disk_usage o (mountpoint partition) = Raise e
      /\ is_permission_error e = false.
Proof.
  induction todo as [|partition rest IH]; intros acc e H; simpl in H.
  - discriminate.
  - destruct (skipped_on_nt o partition) eqn:Es.
    + destruct (IH _ _ H) as (before & p & after & -> & Hb & Hrest).
      exists (partition :: before), p, after. split; [reflexivity|].
      split; [|exact Hrest]. simpl. unfold fails_otherwise at 1.
      now rewrite Es.
    + destruct (disk_usage o (mountpoint partition)) as [usage|e'] eqn:Eu.
      * destruct (IH _ _ H) as (before & p & after & -> & Hb & Hrest).
        exists (partition :: before), p, after. split; [reflexivity|].
        split; [|exact Hrest]. simpl. unfold fails_otherwise at 1.
        now rewrite Es, Eu.
      * destruct (is_permission_error e') eqn:Ep.
        -- destruct (IH _ _ H) as (before & p & after & -> & Hb & Hrest).
           exists (partition :: before), p, after. split; [reflexivity|].
           split; [|exact Hrest]. simpl. unfold fails_otherwise at 1.
           now rewrite Es, Eu, Ep.
        -- injection H as <-.
           exists [], partition, rest. now repeat split.
Qed.

(** X2. A list returned by [get_disk_info] holds, in the order the system
    reported them, one entry for every partition that was not skipped and
    whose usage query succeeded, and nothing else. *)
Theorem get_disk_info_content (o : os) (l : list partition_info) :
  get_disk_info o = Ok l ->
  l = flat_map (listed o) (disk_partitions o).
Proof. intros H. exact (scan_content o _ _ _ H). Qed.

Lemma get_disk_info_content_witness :
  exists l,
    get_disk_info Samples.laptop = Ok l
    /\ l = flat_map (listed Samples.laptop) (disk_partitions Samples.laptop)
    /\ map pi_mountpoint l = ["/"; "/home"].
Proof.
  eexists. split; [reflexivity|]. split.
  - apply get_disk_info_content. reflexivity.
  - reflexivity.
Defined.

(** X3. When [get_disk_info] raises, the exception is the one raised by
    the usage query of the first partition that is not skipped and fails
    with something other than a permission error; the entries collected
    before it are lost. *)
Theorem get_disk_info_first_failure (o : os) (e : exn) :
  get_disk_info o = Raise e ->
  exists before partition after,
    disk_partitions o = (before ++ partition :: after)%list
    /\ existsb (fails_otherwise o) before = false
    /\ skipped_on_nt o partition = false
    /\ disk_usage o (mountpoint partition) = Raise e
    /\ is_permission_error e = false.
Proof. intros H. exact (scan_first_failure o _ _ _ H). Qed.

Lemma get_disk_info_first_failure_witness :
  exists before partition after,
    disk_partitions stale_mount = (before ++ partition :: after)%list
    /\ mountpoint partition = "/mnt/nfs".
Proof.
  destruct (get_disk_info_first_failure stale_mount
              (mk_exn OtherException "[Errno 116] Stale file handle") eq_refl)
    as (before & partition & after & Hparts & Hb & Hs & Hu & _).
  exists before, partition, after. split; [exact Hparts|].
  destruct before as [|b0 [|b1 before]].
  - injection Hparts as <- _. discriminate Hu.
  - injection Hparts as _ <- _. reflexivity.
  - destruct before; discriminate Hparts.
Defined.

End DiskContent.

(** ** Strings *)

Section StringFacts.

Lemma append_assoc (a b c : string) : (a ++ b) ++ c = a ++ (b ++ c).
Proof. induction a as [|ch a IH]; simpl; [reflexivity | now rewrite IH]. Qed.

Lemma append_nil_r (a : string) : a ++ "" = a.
Proof. induction a as [|ch a IH]; simpl; [reflexivity | now rewrite IH]. Qed.

Lemma length_append (a b : string) :
  String.length (a ++ b) = (String.length a + String.length b)%nat.
Proof. induction a as [|ch a IH]; simpl; [reflexivity | now rewrite IH]. Qed.

Lemma mhz_not_unknown (a : string) : a ++ " MHz" <> "Unknown".
Proof.
  intros H.
  assert (Hlen : String.length a = 3%nat).
  { apply (f_equal String.length) in H. rewrite length_append in H.
    simpl in H. lia. }
  destruct a as [|c1 [|c2 [|c3 [|c4 a]]]]; simpl in Hlen; try discriminate.
Qed.

End StringFacts.

(** ** [format_bytes] *)

Section FormatFacts.
Import Py PyNum Format MoreSamples.

Lemma pow1024_succ (k : nat) :
  (inject_Z (1024 ^ Z.of_nat (S k)) == inject_Z (1024 ^ Z.of_nat k) * 1024)%Q.
Proof.
  rewrite Nat2Z.inj_succ, Z.pow_succ_r by lia.
  rewrite inject_Z_mult. apply Qmult_comm.
Qed.

Lemma pow1024_ge (k : nat) : (1024 <= inject_Z (1024 ^ Z.of_nat (S k)))%Q.
Proof.
  change 1024%Q with (inject_Z 1024). rewrite <- Zle_Qle.
  rewrite Nat2Z.inj_succ, Z.pow_succ_r by lia.
  assert (0 < 1024 ^ Z.of_nat k) by (apply Z.pow_pos_nonneg; lia).
  lia.
Qed.

Lemma below_1024 (v : Q) : (v < 1024)%Q -> Qle_bool 1024 v = false.
Proof.
  intros H. destruct (Qle_bool 1024 v) eqn:E; [|reflexivity].
  apply Qle_bool_iff in E. exfalso. exact (Qlt_not_le _ _ H E).
Qed.

Lemma format_loop_unit (us : list string) :
  forall (v : Q) (k : nat),
    (k <= List.length us)%nat ->
    ((1 <= k)%nat -> (inject_Z (1024 ^ Z.of_nat k) <= v)%Q) ->
    ((k < List.length us)%nat -> (v < inject_Z (1024 ^ Z.of_nat (S k)))%Q) ->
    format_loop v us = fixed2 (shrink k v) ++ " " ++ nth k us "PB".
Proof.
  induction us as [|u us IH]; intros v k Hk Hlo Hhi.
  - assert (k = 0%nat) by (simpl in Hk; lia). subst k. reflexivity.
  - destruct k as [|k].
    + simpl. rewrite below_1024; [reflexivity|].
      apply Hhi. simpl. lia.
    + cbn [format_loop shrink nth].
      assert (Hv : (inject_Z (1024 ^ Z.of_nat (S k)) <= v)%Q) by (apply Hlo; lia).
      assert (Hge : Qle_bool 1024 v = true).
      { apply Qle_bool_iff. eapply Qle_trans; [apply pow1024_ge | exact Hv]. }
      rewrite Hge. cbn [negb].
      apply IH.
      * simpl in Hk. lia.
      * intros _. apply Qle_shift_div_l; [reflexivity|].
        now rewrite <- pow1024_succ.
      * intros Hlt. apply Qlt_shift_div_r; [reflexivity|].
        rewrite <- pow1024_succ. apply Hhi. simpl. lia.
Qed.

Lemma shrink_div (k : nat) :
  forall v, (shrink k v == v / inject_Z (1024 ^ Z.of_nat k))%Q.
Proof.
  induction k as [|k IH]; intros v.
  - simpl. change (inject_Z (1024 ^ 0)) with 1%Q. unfold Qdiv.
    change (/ 1)%Q with 1%Q. now rewrite Qmult_1_r.
  - cbn [shrink]. rewrite IH, pow1024_succ.
    assert (Hk : ~ (inject_Z (1024 ^ Z.of_nat k) == 0)%Q).
    { intros H. change 0%Q with (inject_Z 0) in H.
      apply (proj1 (inject_Z_injective _ _)) in H.
      pose proof (Z.pow_pos_nonneg 1024 (Z.of_nat k) eq_refl (Nat2Z.is_nonneg k)) as Hp.
      rewrite H in Hp. discriminate Hp. }
    field. exact Hk.
Qed.

(** X4. [format_bytes] prints the value divided by [1024^k], where [k] is
    the number of whole factors of 1024 the value contains, capped at 5,
    followed by the [k]-th of the units B, KB, MB, GB, TB, PB. *)
Theorem format_bytes_unit (v : Q) (k : nat) :
  (k <= 5)%nat ->
  ((1 <= k)%nat -> (inject_Z (1024 ^ Z.of_nat k) <= v)%Q) ->
  ((k < 5)%nat -> (v < inject_Z (1024 ^ Z.of_nat (S k)))%Q) ->
  format_bytes v = fixed2 (shrink k v) ++ " " ++ nth k units "PB"
  /\ (shrink k v == v / inject_Z (1024 ^ Z.of_nat k))%Q.
Proof.
  intros Hk Hlo Hhi. split.
  - now apply format_loop_unit.
  - apply shrink_div.
Qed.

Lemma format_bytes_unit_witness :
  format_bytes (inject_Z 5368709120) = "5.00 GB".
Proof.
  destruct (format_bytes_unit (inject_Z 5368709120) 3) as [H _].
  - lia.
  - intros _. vm_compute. discriminate.
  - intros _. vm_compute. reflexivity.
  - rewrite H. vm_compute. reflexivity.
Defined.

Lemma fixed2_whole (n : Z) : 0 <= n -> fixed2 (inject_Z n) = str n ++ ".00".
Proof.
  intros Hn. unfold fixed2.
  assert (Hc : round_half_even (Qabs (inject_Z n) * 100) = n * 100).
  { unfold round_half_even, inject_Z, Qabs, Qmult, Qfloor, Qminus, Qplus, Qopp,
      Qcompare. simpl.
    rewrite Z.abs_eq, Z.div_1_r by lia.
    replace ((n * 100 * 1 + - (n * 100) * 1) * 2 ?= 1)%Z with Lt; [reflexivity|].
    symmetry. apply Z.compare_lt_iff. lia. }
  rewrite Hc.
  assert (Hs : Qle_bool 0 (inject_Z n) = true).
  { apply Qle_bool_iff. change 0%Q with (inject_Z 0). now rewrite <- Zle_Qle. }
  rewrite Hs, Z.div_mul, Z.mod_mul by lia. reflexivity.
Qed.

(** X5. A whole number of bytes from 0 to 1023 is printed as that number
    with two zero decimals and the unit B. *)
Theorem format_bytes_whole_bytes (n : Z) :
  0 <= n < 1024 ->
  format_bytes (inject_Z n) = str n ++ ".00 B".
Proof.
  intros [Hlo Hhi].
  unfold format_bytes.
  rewrite (format_loop_unit units (inject_Z n) 0).
  - cbn [shrink nth units]. rewrite fixed2_whole by assumption.
    now rewrite append_assoc.
  - simpl. lia.
  - intros H. inversion H.
  - intros _. change (inject_Z (1024 ^ Z.of_nat 1)) with (inject_Z 1024).
    now rewrite <- Zlt_Qlt.
Qed.

Lemma format_bytes_whole_bytes_witness :
  format_bytes (inject_Z 512) = "512.00 B".
Proof.
  rewrite (format_bytes_whole_bytes 512) by lia.
  vm_compute. reflexivity.
Defined.

End FormatFacts.

(** ** CPU frequencies *)

Section CpuFacts.
Import Py Format CpuInfo MoreSamples.

Lemma freq_text_unknown (freq : option scpufreq) (field : scpufreq -> Q) :
  freq_text freq field = "Unknown"
  <-> (freq = None \/ exists f, freq = Some f /\ (field f == 0)%Q).
Proof.
  unfold freq_text, nonzero. split.
  - destruct freq as [f|]; [|now left].
    destruct (Qeq_bool (field f) 0) eqn:E; simpl; intros H.
    + right. exists f. split; [reflexivity|]. now apply Qeq_bool_iff.
    + exfalso. exact (mhz_not_unknown _ H).
  - intros [-> | (f & -> & H)]; [reflexivity|].
    apply Qeq_bool_iff in H. now rewrite H.
Qed.

(** X6. A frequency entry of [get_cpu_info] reads "Unknown" exactly when
    psutil gives no frequencies or gives zero for that field; in every
    other case it is the value with two decimals followed by " MHz". *)
Theorem get_cpu_info_frequencies (env : psutil) :
  (max_freq (get_cpu_info env) = "Unknown"
   <-> (cpu_freq env = None \/ exists f, cpu_freq env = Some f /\ (max f == 0)%Q))
  /\ (current_freq (get_cpu_info env) = "Unknown"
      <-> (cpu_freq env = None
           \/ exists f, cpu_freq env = Some f /\ (current f == 0)%Q))
  /\ (forall f, cpu_freq env = Some f ->
        (~ (max f == 0)%Q -> max_freq (get_cpu_info env) = fixed2 (max f) ++ " MHz")
        /\ (~ (current f == 0)%Q ->
            current_freq (get_cpu_info env) = fixed2 (current f) ++ " MHz")).
Proof.
  split; [apply freq_text_unknown|]. split; [apply freq_text_unknown|].
  intros f Hf. simpl. rewrite Hf. unfold freq_text, nonzero.
  split; intros Hnz.
  - destruct (Qeq_bool (max f) 0) eqn:E; [|reflexivity].
    apply Qeq_bool_iff in E. contradiction.
  - destruct (Qeq_bool (current f) 0) eqn:E; [|reflexivity].
    apply Qeq_bool_iff in E. contradiction.
Qed.

Lemma get_cpu_info_frequencies_witness :
  max_freq (get_cpu_info desktop_cpu) = "3600.00 MHz"
  /\ current_freq (get_cpu_info desktop_cpu) = "Unknown".
Proof.
  destruct (get_cpu_info_frequencies desktop_cpu) as (_ & Hc & Hf).
  split.
  - destruct (Hf _ eq_refl) as [Hmax _].
    rewrite Hmax; [vm_compute; reflexivity | discriminate].
  - apply Hc. right. eexists. split; reflexivity.
Defined.

End CpuFacts.

(** ** Calendar navigation *)

Section CalendarFacts.
Import Py PyNum Calendar MoreSamples.

Variable month_text : Z -> Z -> string.

Lemma update_calendar_valid (st : cal) :
  1 <= current_month st <= 12 ->
  update_calendar month_text st
  = Ok {| current_month := current_month st;
          current_year := current_year st;
          current_month_label :=
            nth (Z.to_nat (current_month st)) month_name ""
            ++ " " ++ str (current_year st);
          calendar_display := month_text (current_year st) (current_month st) |}.
Proof.
  intros H. destruct st as [m y l d]. simpl in *.
  assert (Hm : m = 1 \/ m = 2 \/ m = 3 \/ m = 4 \/ m = 5 \/ m = 6 \/ m = 7
               \/ m = 8 \/ m = 9 \/ m = 10 \/ m = 11 \/ m = 12) by lia.
  repeat (destruct Hm as [-> | Hm]; [reflexivity|]). subst m. reflexivity.
Qed.

Lemma next_month_valid (st : cal) :
  1 <= current_month st <= 12 ->
  exists st',
    next_month month_text st = Ok st'
    /\ 1 <= current_month st' <= 12
    /\ 12 * current_year st' + current_month st'
       = 12 * current_year st + current_month st + 1
    /\ current_month_label st'
       = nth (Z.to_nat (current_month st')) month_name ""
         ++ " " ++ str (current_year st')
    /\ calendar_display st' = month_text (current_year st') (current_month st').
Proof.
  intros H. unfold next_month.
  destruct (12 <? current_month st + 1)%Z eqn:E.
  - apply Z.ltb_lt in E. rewrite update_calendar_valid by (simpl; lia).
    eexists. split; [reflexivity|].
    cbn [current_month current_year current_month_label calendar_display].
    repeat split; solve [lia | reflexivity].
  - apply Z.ltb_ge in E. rewrite update_calendar_valid by (simpl; lia).
    eexists. split; [reflexivity|].
    cbn [current_month current_year current_month_label calendar_display].
    repeat split; solve [lia | reflexivity].
Qed.

Lemma prev_month_valid (st : cal) :
  1 <= current_month st <= 12 ->
  exists st',
    prev_month month_text st = Ok st'
    /\ 1 <= current_month st' <= 12
    /\ 12 * current_year st' + current_month st'
       = 12 * current_year st + current_month st - 1
    /\ current_month_label st'
       = nth (Z.to_nat (current_month st')) month_name ""
         ++ " " ++ str (current_year st')
    /\ calendar_display st' = month_text (current_year st') (current_month st').
Proof.
  intros H. unfold prev_month.
  destruct (current_month st - 1 <? 1)%Z eqn:E.
  - apply Z.ltb_lt in E. rewrite update_calendar_valid by (simpl; lia).
    eexists. split; [reflexivity|].
    cbn [current_month current_year current_month_label calendar_display].
    repeat split; solve [lia | reflexivity].
  - apply Z.ltb_ge in E. rewrite update_calendar_valid by (simpl; lia).
    eexists. split; [reflexivity|].
    cbn [current_month current_year current_month_label calendar_display].
    repeat split; solve [lia | reflexivity].
Qed.

(** X8. From a month number between 1 and 12, "Next >" followed by
    "< Previous", and "< Previous" followed by "Next >", both complete
    and come back to the same month and year, with the label and the
    rendered month of that month. *)
Theorem next_prev_round_trip (st : cal) :
  1 <= current_month st <= 12 ->
  (exists st1 st2,
     next_month month_text st = Ok st1
     /\ prev_month month_text st1 = Ok st2
     /\ current_month st2 = current_month st
     /\ current_year st2 = current_year st
     /\ update_calendar month_text st = Ok st2)
  /\ (exists st1 st2,
        prev_month month_text st = Ok st1
        /\ next_month month_text st1 = Ok st2
        /\ current_month st2 = current_month st
        /\ current_year st2 = current_year st
        /\ update_calendar month_text st = Ok st2).
Proof.
  intros H. split.
  - destruct (next_month_valid st H) as (st1 & E1 & R1 & I1 & _).
    destruct (prev_month_valid st1 R1) as (st2 & E2 & R2 & I2 & L2 & D2).
    exists st1, st2.
    assert (Hm : current_month st2 = current_month st) by lia.
    assert (Hy : current_year st2 = current_year st) by lia.
    repeat split; try assumption.
    rewrite update_calendar_valid by assumption.
    destruct st2 as [m2 y2 l2 d2]. simpl in *. now subst.
  - destruct (prev_month_valid st H) as (st1 & E1 & R1 & I1 & _).
    destruct (next_month_valid st1 R1) as (st2 & E2 & R2 & I2 & L2 & D2).
    exists st1, st2.
    assert (Hm : current_month st2 = current_month st) by lia.
    assert (Hy : current_year st2 = current_year st) by lia.
    repeat split; try assumption.
    rewrite update_calendar_valid by assumption.
    destruct st2 as [m2 y2 l2 d2]. simpl in *. now subst.
Qed.

(** X9. From a month number between 1 and 12, every sequence of presses
    completes, keeps the month number between 1 and 12, and moves the
    calendar by the net number of months: with [n] the presses of "Next >"
    minus those of "< Previous", the month becomes
    [(month - 1 + n) mod 12 + 1] and the year grows by
    [(month - 1 + n) div 12]. *)
Theorem presses_move_by_net (buttons : list bool) (st : cal) :
  1 <= current_month st <= 12 ->
  exists st',
    presses month_text buttons st = Ok st'
    /\ 1 <= current_month st' <= 12
    /\ current_month st' = (current_month st - 1 + net buttons) mod 12 + 1
    /\ current_year st'
       = current_year st + (current_month st - 1 + net buttons) / 12.
Proof.
  revert st. induction buttons as [|b later IH]; intros st H.
  - exists st. simpl. split; [reflexivity|]. split; [assumption|].
    rewrite Z.add_0_r, Z.mod_small, Z.div_small by lia. lia.
  - assert (Hstep : exists st1,
               (if b then next_month else prev_month) month_text st = Ok st1
               /\ 1 <= current_month st1 <= 12
               /\ 12 * current_year st1 + current_month st1
                  = 12 * current_year st + current_month st
                    + (if b then 1 else -1)).
    { destruct b.
      - destruct (next_month_valid st H) as (st1 & E & R & I & _).
        exists st1. now repeat split.
      - destruct (prev_month_valid st H) as (st1 & E & R & I & _).
        exists st1. repeat split; try assumption; lia. }
    destruct Hstep as (st1 & E1 & R1 & I1).
    destruct (IH st1 R1) as (st' & E' & R' & M' & Y').
    exists st'. cbn [presses]. rewrite E1. split; [exact E'|].
    split; [exact R'|].
    assert (Hnet : net (b :: later) = net later + (if b then 1 else -1))
      by (destruct b; reflexivity).
    rewrite Hnet. rewrite M', Y'.
    destruct b; Z.div_mod_to_equations; lia.
Qed.

End CalendarFacts.

Lemma next_prev_round_trip_witness :
  exists st1 st2,
    Calendar.next_month MoreSamples.blank_month MoreSamples.december_2024 = Py.Ok st1
    /\ Calendar.prev_month MoreSamples.blank_month st1 = Py.Ok st2
    /\ Calendar.current_month st2 = 12
    /\ Calendar.current_year st2 = 2024.
Proof.
  destruct (next_prev_round_trip MoreSamples.blank_month MoreSamples.december_2024)
    as [(st1 & st2 & E1 & E2 & Hm & Hy & _) _].
  - simpl. lia.
  - exists st1, st2. repeat split; assumption.
Defined.

Lemma presses_move_by_net_witness :
  exists st',
    Calendar.presses MoreSamples.blank_month
      [true; true; false; true; true; true; true; true; true; true; true; true]
      MoreSamples.march_2024 = Py.Ok st'
    /\ Calendar.current_month st' = 1
    /\ Calendar.current_year st' = 2025.
Proof.
  destruct (presses_move_by_net MoreSamples.blank_month
              [true; true; false; true; true; true; true; true; true; true; true; true]
              MoreSamples.march_2024) as (st' & E & _ & Hm & Hy).
  - simpl. lia.
  - exists st'. split; [exact E|]. split; [exact Hm | exact Hy].
Defined.

(** ** The sliding window of the poller *)

Section PollerWindow.
Import Py Poller Readings Samples MoreSamples.
Local Open Scope list_scope.
Local Open Scope nat_scope.

Lemma count_occ_tab (v tab : nat) (later : list nat) :
  count_occ Nat.eq_dec (tab :: later) v
  = (if Nat.eqb tab v then 1 else 0) + count_occ Nat.eq_dec later v.
Proof.
  simpl. destruct (Nat.eq_dec tab v) as [->|Hne].
  - now rewrite Nat.eqb_refl.
  - apply Nat.eqb_neq in Hne. now rewrite Hne.
Qed.

Lemma cpu_samples_length (env : psutil) (tabs : list nat) :
  forall calls, List.length (cpu_samples env calls tabs) = List.length tabs.
Proof. induction tabs as [|tab later IH]; intros calls; simpl; auto. Qed.

Lemma memory_samples_length (env : psutil) (n : nat) :
  forall calls, List.length (memory_samples env calls n) = n.
Proof. induction n as [|n IH]; intros calls; simpl; auto. Qed.

Lemma lastn_padded (n : nat) (zeros samples : list Q) :
  List.length zeros = n ->
  lastn n (zeros ++ samples) = skipn (List.length samples) (zeros ++ samples).
Proof. intros <-. unfold lastn. rewrite length_app. f_equal. lia. Qed.

Lemma lastn_covered (n : nat) (zeros samples : list Q) :
  n <= List.length samples ->
  lastn n (zeros ++ samples) = lastn n samples.
Proof.
  intros H. unfold lastn. rewrite length_app, skipn_app.
  rewrite skipn_all2 by lia. simpl. f_equal. lia.
Qed.

(** A run of ticks, from any attributes with non-empty histories: [n] is
    the number of ticks that were started. *)
Lemma ticks_run (env : psutil) (tabs : list nat) :
  forall (st st' : app) (r : result unit),
    cpu_usage_history st <> [] ->
    memory_usage_history st <> [] ->
    ticks env tabs st = (st', r) ->
    exists n,
      dashboard_updates (made st') = dashboard_updates (made st) + n
      /\ n <= List.length tabs
      /\ (r = Ok tt -> n = List.length tabs)
      /\ (n = 0 -> st' = st)
      /\ cpu_usage_history st'
         = skipn n (cpu_usage_history st
                    ++ cpu_samples env (cpu_percent_calls (made st)) (firstn n tabs))
      /\ memory_usage_history st'
         = skipn n (memory_usage_history st
                    ++ memory_samples env (virtual_memory_calls (made st)) n)
      /\ (1 <= n ->
          cpu_line_ydata (shown st') = cpu_usage_history st'
          /\ memory_line_ydata (shown st') = memory_usage_history st')
      /\ (r = Ok tt ->
          cpu_percent_calls (made st')
          = cpu_percent_calls (made st) + 2 * List.length tabs
            + count_occ Nat.eq_dec tabs 1
          /\ virtual_memory_calls (made st')
             = virtual_memory_calls (made st) + 2 * List.length tabs
          /\ system_info_calls (made st')
             = system_info_calls (made st) + List.length tabs
               + count_occ Nat.eq_dec tabs 1
          /\ disk_calls (made st')
             = disk_calls (made st) + List.length tabs
               + count_occ Nat.eq_dec tabs 2).
Proof.
  induction tabs as [|tab later IH]; intros st st' r Hc Hm E.
  - cbn [ticks] in E. injection E as <- <-. exists 0.
    cbn [skipn firstn cpu_samples memory_samples List.length count_occ].
    rewrite !app_nil_r. repeat split; lia.
  - destruct (cpu_usage_history st) as [|c cs] eqn:Ec; [congruence|].
    destruct (memory_usage_history st) as [|m ms] eqn:Em; [congruence|].
    destruct (update_system_info env tab st) as [st1 r1] eqn:E1.
    destruct (tick_value env tab st st1 r1 c cs m ms Ec Em E1)
      as (Hc1 & Hm1 & Yc & Ym & _ & _ & Du & Cm & Cc & Hr & Dc & Sc & _).
    rewrite (ticks_cons env tab later st st1 r1 E1) in E.
    destruct r1 as [[]|e].
    + assert (Hfirst : exists l,
                 DiskInfo.get_disk_info (disks env (disk_calls (made st))) = Ok l).
      { destruct (DiskInfo.get_disk_info (disks env (disk_calls (made st))))
          as [l|e]; [now exists l | discriminate Hr]. }
      destruct Hfirst as [l Hl]. rewrite Hl in Cc, Dc, Sc.
      destruct (IH st1 st' r) as (n & Dn & Ln & Rn & Zn & Hcn & Hmn & Yn & Kn).
      { rewrite Hc1. now destruct cs. }
      { rewrite Hm1. now destruct ms. }
      { exact E. }
      exists (S n). split; [lia|]. split; [simpl; lia|].
      split; [intros Hok; simpl; rewrite (Rn Hok); reflexivity|].
      split; [intros H; discriminate H|].
      split; [|split; [|split]].
      * rewrite Hcn, Hc1, Cc.
        cbn [firstn cpu_samples skipn List.app]. now rewrite <- app_assoc.
      * rewrite Hmn, Hm1, Cm.
        cbn [memory_samples skipn List.app]. now rewrite <- app_assoc.
      * intros _. destruct n as [|n'].
        -- rewrite (Zn eq_refl). now split.
        -- apply Yn. lia.
      * intros Hok. destruct (Kn Hok) as (K1 & K2 & K3 & K4).
        rewrite K1, K2, K3, K4, Cc, Cm, Sc, Dc, !count_occ_tab.
        cbn [List.length]. repeat split; lia.
    + injection E as <- <-. exists 1.
      split; [lia|]. split; [simpl; lia|].
      split; [intros H; discriminate H|].
      split; [intros H; discriminate H|].
      split; [|split; [|split]].
      * rewrite Hc1. cbn [firstn cpu_samples skipn List.app].
        reflexivity.
      * rewrite Hm1. cbn [memory_samples skipn List.app].
        reflexivity.
      * intros _. now split.
      * intros H; discriminate H.
Qed.

(** X10. When no disk query raises, [N] ticks from the initial state all
    end normally, and by then the memory percentage has been asked for
    [2 N] times, the CPU percentage [2 N] times plus once for every tick
    that found tab 1 selected, the host information [N] times plus once
    for every tick on tab 1, the partitions [N] times plus once for every
    tick on tab 2, and the dashboard has been refreshed [N] times. *)
Theorem ticks_query_counts (env : psutil) (tabs : list nat) :
  (forall k, exists l, DiskInfo.get_disk_info (disks env k) = Ok l) ->
  exists st,
    ticks env tabs init = (st, Ok tt)
    /\ virtual_memory_calls (made st) = 2 * List.length tabs
    /\ cpu_percent_calls (made st)
       = 2 * List.length tabs + count_occ Nat.eq_dec tabs 1
    /\ system_info_calls (made st)
       = List.length tabs + count_occ Nat.eq_dec tabs 1
    /\ disk_calls (made st) = List.length tabs + count_occ Nat.eq_dec tabs 2
    /\ dashboard_updates (made st) = List.length tabs.
Proof.
  intros Hdisks.
  pose proof (ticks_complete env tabs Hdisks init) as Hok.
  destruct (ticks env tabs init) as [st r] eqn:E.
  cbn [snd] in Hok. rewrite Hok in E by discriminate.
  rewrite Hok by discriminate.
  destruct (ticks_run env tabs init st (Ok tt)) as (n & Dn & _ & Rn & _ & _ & _ & _ & Kn);
    try discriminate; [exact E|].
  destruct (Kn eq_refl) as (K1 & K2 & K3 & K4).
  exists st. split; [reflexivity|].
  rewrite K1, K2, K3, K4, Dn, (Rn eq_refl). repeat split.
Qed.

Lemma ticks_query_counts_witness :
  exists st,
    ticks moving_provider [0; 1; 2; 1] init = (st, Ok tt)
    /\ cpu_percent_calls (made st) = 10
    /\ disk_calls (made st) = 5.
Proof.
  destruct (ticks_query_counts moving_provider [0; 1; 2; 1])
    as (st & E & _ & Cc & _ & Dc & _).
  - intros k. eexists. reflexivity.
  - exists st. split; [exact E|]. split; [exact Cc | exact Dc].
Defined.

(** X11. After any run of wake-ups, with [n] the number of ticks that were
    started (all of them unless one raised), each history is the last 60
    elements of the sixty initial zeros followed by the [n] samples
    recorded so far, oldest first: the first CPU answer of every tick, and
    every second memory answer. From 60 ticks on no initial zero is left,
    and after at least one tick the two charts hold the two histories. *)
Theorem histories_are_sliding_windows (env : psutil) (tabs : list nat)
    (st : app) (r : result unit) :
  ticks env tabs init = (st, r) ->
  let n := dashboard_updates (made st) in
  n <= List.length tabs
  /\ (r = Ok tt -> n = List.length tabs)
  /\ cpu_usage_history st
     = lastn 60 (filled 60 ++ cpu_samples env 0 (firstn n tabs))
  /\ memory_usage_history st = lastn 60 (filled 60 ++ memory_samples env 0 n)
  /\ (60 <= n ->
      cpu_usage_history st = lastn 60 (cpu_samples env 0 (firstn n tabs))
      /\ memory_usage_history st = lastn 60 (memory_samples env 0 n))
  /\ (1 <= n ->
      cpu_line_ydata (shown st) = cpu_usage_history st
      /\ memory_line_ydata (shown st) = memory_usage_history st).
Proof.
  intros E n.
  destruct (ticks_run env tabs init st r) as (k & Dk & Lk & Rk & _ & Hc & Hm & Y & _);
    try discriminate; [exact E|].
  assert (Hn : n = k) by (subst n; rewrite Dk; reflexivity).
  rewrite Hn.
  assert (Hlen : List.length (cpu_samples env 0 (firstn k tabs)) = k).
  { rewrite cpu_samples_length, length_firstn. lia. }
  assert (Hc' : cpu_usage_history st
                = lastn 60 (filled 60 ++ cpu_samples env 0 (firstn k tabs))).
  { rewrite Hc, lastn_padded by reflexivity. now rewrite Hlen. }
  assert (Hm' : memory_usage_history st
                = lastn 60 (filled 60 ++ memory_samples env 0 k)).
  { rewrite Hm, lastn_padded by reflexivity.
    now rewrite memory_samples_length. }
  split; [exact Lk|]. split; [exact Rk|].
  split; [exact Hc'|]. split; [exact Hm'|]. split; [|exact Y].
  intros H60. split.
  - rewrite Hc'. apply lastn_covered. now rewrite Hlen.
  - rewrite Hm'. apply lastn_covered. now rewrite memory_samples_length.
Qed.

Lemma histories_are_sliding_windows_witness :
  exists st,
    ticks moving_provider (repeat 0 61) init = (st, Ok tt)
    /\ cpu_usage_history st = repeat 50%Q 60
    /\ cpu_line_ydata (shown st) = cpu_usage_history st.
Proof.
  assert (E : ticks moving_provider (repeat 0 61) init
              = (fst (ticks moving_provider (repeat 0 61) init), Ok tt))
    by (vm_compute; reflexivity).
  exists (fst (ticks moving_provider (repeat 0 61) init)).
  split; [exact E|].
  destruct (histories_are_sliding_windows moving_provider (repeat 0 61) _ _ E)
    as (_ & Hn & _ & _ & Hfull & Hy).
  assert (N : dashboard_updates
                (made (fst (ticks moving_provider (repeat 0 61) init))) = 61)
    by (rewrite (Hn eq_refl); apply repeat_length).
  split.
  - destruct Hfull as [Hc _]; [rewrite N; lia|].
    rewrite Hc, N. vm_compute. reflexivity.
  - destruct Hy as [Hy _]; [rewrite N; lia | exact Hy].
Defined.

(** X18. A disk query that raises inside [update_dashboard] ends the tick
    with that exception and polling with it: the timer is not re-armed,
    so no later wake-up runs. By then the tick has recorded its samples,
    set the gauges and asked for the CPU percentage twice; the disk
    overview and the widgets of the other tabs keep their old content,
    also when tab 1 or tab 2 is selected. *)
Theorem disk_error_stops_polling (env : psutil) (tab : nat) (later : list nat)
    (st st' : app) (r : result unit) (e : exn) :
  cpu_usage_history st <> [] ->
  memory_usage_history st <> [] ->
  DiskInfo.get_disk_info (disks env (disk_calls (made st))) = Raise e ->
  update_system_info env tab st = (st', r) ->
  r = Raise e
  /\ ticks env (tab :: later) st = (st', Raise e)
  /\ last (cpu_usage_history st') 0%Q
     = cpu_percent env (cpu_percent_calls (made st))
  /\ last (memory_usage_history st') 0%Q
     = virtual_memory_percent env (virtual_memory_calls (made st))
  /\ cpu_progress (shown st')
     = cpu_percent env (S (cpu_percent_calls (made st)))
  /\ cpu_percent_calls (made st') = cpu_percent_calls (made st) + 2
  /\ disk_calls (made st') = disk_calls (made st) + 1
  /\ disk_info_text (shown st') = disk_info_text (shown st)
  /\ tabs_shown st' = tabs_shown st.
Proof.
  intros Hc Hm Hdisk E.
  destruct (cpu_usage_history st) as [|c cs] eqn:Ec; [congruence|].
  destruct (memory_usage_history st) as [|m ms] eqn:Em; [congruence|].
  destruct (tick_value env tab st st' r c cs m ms Ec Em E)
    as (Hc1 & Hm1 & _ & _ & Pc & _ & _ & _ & Cc & Hr & Dc & _ & Td & Tp).
  rewrite Hdisk in Cc, Hr, Dc, Td.
  split; [exact Hr|].
  split; [rewrite (ticks_cons env tab later st st' r E), Hr; reflexivity|].
  rewrite Hc1, Hm1, !last_last.
  repeat split; try assumption; try lia.
  exact (Tp e Hdisk).
Qed.

Lemma disk_error_stops_polling_witness :
  ticks stale_only [1; 0; 0] init
  = (fst (update_system_info stale_only 1 init),
     Raise (mk_exn OtherException "[Errno 116] Stale file handle"))
  /\ cpu_percent_calls (made (fst (update_system_info stale_only 1 init))) = 2.
Proof.
  destruct (disk_error_stops_polling stale_only 1 [0; 0] init
              (fst (update_system_info stale_only 1 init))
              (snd (update_system_info stale_only 1 init))
              (mk_exn OtherException "[Errno 116] Stale file handle"))
    as (_ & Ht & _ & _ & _ & Cc & _).
  - discriminate.
  - discriminate.
  - reflexivity.
  - apply surjective_pairing.
  - split; [exact Ht | exact Cc].
Defined.

End PollerWindow.

(** ** The log, the dialogs and the button guard *)

Section MaintenanceMore.
Import Py Maintenance Readings Samples MoreSamples.
Local Open Scope list_scope.

(** *** What reaches the log *)

Lemma log_append_replay (me : thread) (text : string) (ws : widgets) :
  replay (fst (log_append me text)) ws
  = {| log_text := (log_text ws ++ text ++ nl)%string;
       log_text_state := DISABLED;
       update_button_state := update_button_state ws;
       cleanup_button_state := cleanup_button_state ws |}.
Proof. reflexivity. Qed.

Lemma read_loop_replay (me : thread) (reads : list string) :
  forall ws,
    log_text (replay (fst (read_loop me reads)) ws)
    = (log_text ws ++ logged reads)%string
    /\ update_button_state (replay (fst (read_loop me reads)) ws)
       = update_button_state ws
    /\ cleanup_button_state (replay (fst (read_loop me reads)) ws)
       = cleanup_button_state ws.
Proof.
  induction reads as [|output later IH]; intros ws.
  - simpl. now rewrite append_nil_r.
  - cbn [read_loop logged]. rewrite (read_loop_eta me later).
    destruct (truthy output).
    + change (fst (bind (log_append me (strip output))
                     (fun _ => (fst (read_loop me later), Ok tt))))
        with (fst (log_append me (strip output)) ++ fst (read_loop me later)).
      rewrite replay_app, log_append_replay.
      destruct (IH {| log_text := (log_text ws ++ strip output ++ nl)%string;
                      log_text_state := DISABLED;
                      update_button_state := update_button_state ws;
                      cleanup_button_state := cleanup_button_state ws |})
        as (Hl & Hu & Hc).
      rewrite Hl, Hu, Hc. simpl. now rewrite !append_assoc.
    + change (fst (bind (ret tt) (fun _ => (fst (read_loop me later), Ok tt))))
        with (fst (read_loop me later)).
      apply IH.
Qed.

(** X12. A command that starts and exits has every non-empty line it
    printed appended to the log, stripped and in order, even when the log
    widget was disabled before; the buttons are not touched and the
    return code is handed back. *)
Theorem stream_logs_every_line (me : thread) (w : world) (argv reads : list string)
    (returncode : Z) (ws : widgets) :
  popen w argv = spawned reads (exits returncode) ->
  snd (stream me w argv) = Ok returncode
  /\ log_text (replay (fst (stream me w argv)) ws)
     = (log_text ws ++ logged reads)%string
  /\ update_button_state (replay (fst (stream me w argv)) ws)
     = update_button_state ws
  /\ cleanup_button_state (replay (fst (stream me w argv)) ws)
     = cleanup_button_state ws.
Proof.
  intros Hp. unfold stream. rewrite Hp, (read_loop_eta me reads).
  cbn [bind emit ret fst snd List.app].
  split; [reflexivity|].
  change (replay ({| issuer := me; action := Popen argv |}
                    :: fst (read_loop me reads) ++ []) ws)
    with (replay (fst (read_loop me reads) ++ []) ws).
  rewrite app_nil_r. apply read_loop_replay.
Qed.

Lemma stream_logs_every_line_witness :
  log_text
    (replay (fst (stream WorkerThread refresh_fails ["apt"; "update"]%string))
       fresh_window)
  = ("Err:1 http://archive.example stable InRelease" ++ nl
     ++ "E: Failed to fetch" ++ nl)%string.
Proof.
  destruct (stream_logs_every_line WorkerThread refresh_fails
              ["apt"; "update"]%string
              ["Err:1 http://archive.example stable InRelease" ++ nl;
               "E: Failed to fetch" ++ nl]%string 100 fresh_window eq_refl)
    as (_ & Hl & _).
  rewrite Hl. vm_compute. reflexivity.
Defined.

(** X13. Whatever the window looked like before, the button commands hand
    the worker a log that holds only the banner line, disabled, and two
    disabled buttons: the state after an operation is the worker's calls
    replayed on that window. *)
Theorem operation_starts_clean (w : world) (ws : widgets) :
  replay (fst (run_system_update w)) ws
  = replay (fst (_run_system_update_thread WorkerThread w))
      {| log_text := ("Starting system update..." ++ nl)%string;
         log_text_state := DISABLED;
         update_button_state := DISABLED;
         cleanup_button_state := DISABLED |}
  /\ replay (fst (run_system_cleanup w)) ws
     = replay (fst (_run_system_cleanup_thread WorkerThread w))
         {| log_text := ("Starting system cleanup..." ++ nl)%string;
            log_text_state := DISABLED;
            update_button_state := DISABLED;
            cleanup_button_state := DISABLED |}.
Proof.
  split.
  - change (fst (run_system_update w))
      with (fst (begin MainThread ("Starting system update..." ++ nl)%string)
            ++ fst (_run_system_update_thread WorkerThread w)).
    rewrite replay_app. f_equal.
  - change (fst (run_system_cleanup w))
      with (fst (begin MainThread ("Starting system cleanup..." ++ nl)%string)
            ++ fst (_run_system_cleanup_thread WorkerThread w)).
    rewrite replay_app. f_equal.
Qed.

(** *** Outcomes *)

Lemma read_loop_keeps (me : thread) (reads : list string) :
  keeps_disabled (fst (read_loop me reads)) = true.
Proof.
  induction reads as [|output later IH]; [reflexivity|].
  cbn [read_loop]. rewrite (read_loop_eta me later).
  destruct (truthy output); simpl; exact IH.
Qed.

Lemma guard_held_app (t t' : trace) :
  keeps_disabled t = true -> guard_held (t ++ t') = guard_held t'.
Proof.
  induction t as [|ev later IH]; intros H; [reflexivity|].
  simpl in H. apply andb_true_iff in H. destruct H as [Hev Hlater].
  simpl. rewrite Hev. simpl. now apply IH.
Qed.

Lemma guard_held_sound (t : trace) :
  guard_held t = true ->
  forall pre ev post,
    t = pre ++ ev :: post -> is_enable (action ev) = true -> spawns post = [].
Proof.
  induction t as [|x later IH]; intros H pre ev post Ht Hev.
  - destruct pre; discriminate.
  - simpl in H. apply andb_true_iff in H. destruct H as [Hx Hlater].
    destruct pre as [|p pre].
    + injection Ht as -> ->. rewrite Hev in Hx. simpl in Hx.
      now destruct (spawns post).
    + injection Ht as _ ->. exact (IH Hlater pre ev post eq_refl Hev).
Qed.

(** Replace the events of one read loop by a name, keeping what is known
    about them. *)
Ltac name_read_loop :=
  match goal with
  | |- context [read_loop ?me ?reads] =>
      let t := fresh "lines" in
      let Hs := fresh "Hspawns" in
      let Hd := fresh "Hdialogs" in
      let Hk := fresh "Hkeeps" in
      destruct (read_loop_quiet me reads) as [Hs Hd];
      pose proof (read_loop_keeps me reads) as Hk;
      rewrite (read_loop_eta me reads);
      set (t := fst (read_loop me reads)) in *;
      clearbody t
  end.

(** Follow the worker through every answer the operating system can
    give. *)
Ltac follow_world w :=
  repeat
    first
      [ name_read_loop
      | match goal with
        | |- context [popen w ?argv] =>
            let e := fresh "e" in
            let reads := fresh "reads" in
            let rc := fresh "rc" in
            destruct (popen w argv) as [e | reads [rc | e]]
        | |- context [run w ?argv] =>
            let e := fresh "e" in
            let rc := fresh "rc" in
            destruct (run w argv) as [rc | e]
        | H : (?rc =? 0)%Z = _ |- context [(?rc =? 0)%Z] => rewrite H
        | |- context [(?rc =? 0)%Z] =>
            let H := fresh "Hcode" in is_var rc; destruct (rc =? 0)%Z eqn:H
        | |- context [is_called_process_error ?e] =>
            is_var e; destruct (is_called_process_error e)
        end
      | progress change (0 =? 0)%Z with true
      | progress cbn [bind emit ret raise try_except try_finally fst snd negb List.app
                      is_called_process_error exn_type] ].

Ltac settle_trace :=
  repeat
    first
      [ reflexivity
      | rewrite <- app_assoc
      | rewrite app_nil_r
      | progress simpl
      | rewrite dialogs_app
      | rewrite spawns_app
      | rewrite guard_held_app by assumption
      | match goal with
        | H : spawns ?t = [] |- context [spawns ?t] => rewrite H
        | H : dialogs ?t = [] |- context [dialogs ?t] => rewrite H
        end ].

(** X14. Every run of a worker function, whatever the operating system
    answers, opens exactly one modal dialog. *)
Theorem exactly_one_dialog (me : thread) (w : world) :
  List.length (dialogs (fst (_run_system_update_thread me w))) = 1%nat
  /\ List.length (dialogs (fst (_run_system_cleanup_thread me w))) = 1%nat.
Proof.
  split.
  - unfold _run_system_update_thread, update_body, permission_denied, unexpected,
      enable_buttons, stream, log_append.
    destruct (geteuid w =? 0)%Z; follow_world w; settle_trace.
  - unfold _run_system_cleanup_thread, cleanup_body, clean_tmp, run_checked,
      permission_denied, unexpected, enable_buttons, stream, log_append.
    destruct (geteuid w =? 0)%Z; follow_world w; settle_trace.
Qed.

(** X15. Once a worker function has re-enabled a button it starts no
    further command: every [Popen] and [subprocess.run] call of a run
    comes before the first re-enabling call, whatever the operating system
    answers. *)
Theorem no_command_after_enabling (me : thread) (w : world)
    (pre : trace) (ev : event) (post : trace) :
  (fst (_run_system_update_thread me w) = pre ++ ev :: post
   \/ fst (_run_system_cleanup_thread me w) = pre ++ ev :: post) ->
  is_enable (action ev) = true ->
  spawns post = [].
Proof.
  intros [H | H] Hev.
  - refine (guard_held_sound _ _ pre ev post H Hev).
    unfold _run_system_update_thread, update_body, permission_denied, unexpected,
      enable_buttons, stream, log_append.
    destruct (geteuid w =? 0)%Z; follow_world w; settle_trace.
  - refine (guard_held_sound _ _ pre ev post H Hev).
    unfold _run_system_cleanup_thread, cleanup_body, clean_tmp, run_checked,
      permission_denied, unexpected, enable_buttons, stream, log_append.
    destruct (geteuid w =? 0)%Z; follow_world w; settle_trace.
Qed.

Lemma no_command_after_enabling_witness :
  nth_error (fst (_run_system_update_thread WorkerThread refresh_fails)) 22
  = Some {| issuer := WorkerThread; action := button_config update_button NORMAL |}
  /\ spawns (skipn 23 (fst (_run_system_update_thread WorkerThread refresh_fails)))
     = [].
Proof.
  split; [reflexivity|].
  apply (no_command_after_enabling WorkerThread refresh_fails
           (firstn 22 (fst (_run_system_update_thread WorkerThread refresh_fails)))
           {| issuer := WorkerThread; action := button_config update_button NORMAL |}).
  - left. reflexivity.
  - reflexivity.
Defined.

(** X16. When [apt update] exits with code 0 the update worker goes on to
    [apt upgrade -y], and that command's return code alone decides the
    single dialog: "Update Complete" for 0, "Update Error" with "Error
    upgrading packages." otherwise. *)
Theorem upgrade_decides_outcome (me : thread) (w : world)
    (reads1 reads2 : list string) (returncode : Z) :
  geteuid w = 0 ->
  popen w ["apt"; "update"]%string = spawned reads1 (exits 0) ->
  popen w ["apt"; "upgrade"; "-y"]%string = spawned reads2 (exits returncode) ->
  snd (_run_system_update_thread me w) = Ok tt
  /\ spawns (fst (_run_system_update_thread me w))
     = [ ["apt"; "update"]; ["apt"; "upgrade"; "-y"] ]%string
  /\ dialogs (fst (_run_system_update_thread me w))
     = [ if (returncode =? 0)%Z
         then (false, "Update Complete", "System update completed successfully!")
         else (true, "Update Error", "Error upgrading packages.") ]%string.
Proof.
  intros Heuid H1 H2.
  unfold _run_system_update_thread, update_body, permission_denied, unexpected,
    enable_buttons, stream, log_append.
  rewrite Heuid, H1, H2.
  follow_world w; repeat split; settle_trace.
Qed.

Lemma upgrade_decides_outcome_witness :
  dialogs (fst (_run_system_update_thread WorkerThread all_good))
  = [(false, "Update Complete", "System update completed successfully!")%string]
  /\ dialogs (fst (_run_system_update_thread WorkerThread upgrade_fails))
     = [(true, "Update Error", "Error upgrading packages.")%string].
Proof.
  split.
  - destruct (upgrade_decides_outcome WorkerThread all_good
                ["Reading package lists..." ++ nl]%string
                ["Reading package lists..." ++ nl]%string 0 eq_refl eq_refl eq_refl)
      as (_ & _ & Hd).
    exact Hd.
  - destruct (upgrade_decides_outcome WorkerThread upgrade_fails
                [] ["E: broken packages" ++ nl]%string 100 eq_refl eq_refl eq_refl)
      as (_ & _ & Hd).
    exact Hd.
Defined.

(** X17. Run as root with all three commands starting and ending
    (whatever their return codes), the cleanup worker starts [apt clean],
    [apt autoremove -y] and [rm -rf /tmp/*] in this order and opens the
    "Cleanup Complete" dialog as its only dialog; a non-zero return code
    of [rm] is answered by a log line and nothing else. *)
Theorem cleanup_runs_all_steps (me : thread) (w : world)
    (reads1 reads2 : list string) (code1 code2 code3 : Z) :
  geteuid w = 0 ->
  popen w ["apt"; "clean"]%string = spawned reads1 (exits code1) ->
  popen w ["apt"; "autoremove"; "-y"]%string = spawned reads2 (exits code2) ->
  run w ["rm"; "-rf"; "/tmp/*"]%string = Ok code3 ->
  snd (_run_system_cleanup_thread me w) = Ok tt
  /\ spawns (fst (_run_system_cleanup_thread me w))
     = [ ["apt"; "clean"]; ["apt"; "autoremove"; "-y"]; ["rm"; "-rf"; "/tmp/*"] ]%string
  /\ dialogs (fst (_run_system_cleanup_thread me w))
     = [(false, "Cleanup Complete", "System cleanup completed successfully!")%string]
  /\ In {| issuer := me;
           action := log_text_insert_end
                       ((if (code3 =? 0)%Z
                         then "Temporary files cleaned."
                         else "Error cleaning temporary files.") ++ nl)%string |}
        (fst (_run_system_cleanup_thread me w)).
Proof.
  intros Heuid H1 H2 H3.
  unfold _run_system_cleanup_thread, cleanup_body, clean_tmp, run_checked,
    permission_denied, unexpected, enable_buttons, stream, log_append.
  rewrite Heuid, H1, H2, H3.
  follow_world w; repeat split; settle_trace.
  all: repeat first
         [ solve [left; reflexivity]
         | right
         | apply in_or_app; right
         | progress simpl ].
Qed.

Lemma cleanup_runs_all_steps_witness :
  dialogs (fst (_run_system_cleanup_thread WorkerThread rm_fails))
  = [(false, "Cleanup Complete", "System cleanup completed successfully!")%string]
  /\ In {| issuer := WorkerThread;
           action := log_text_insert_end
                       ("Error cleaning temporary files." ++ nl)%string |}
        (fst (_run_system_cleanup_thread WorkerThread rm_fails)).
Proof.
  destruct (cleanup_runs_all_steps WorkerThread rm_fails [] [] 0 0 1
              eq_refl eq_refl eq_refl eq_refl) as (_ & _ & Hd & Hin).
  split; [exact Hd | exact Hin].
Defined.

End MaintenanceMore.
